(** * instagram-automation: the posting pipeline and its failure policy

    A shallow embedding of the four Python modules of the repository
    (image_generator, description_generator, instagram_poster, main) and
    the properties of the specification proved about them.

    Conventions of the embedding.
    - A Python [str] is a Rocq [string]; a character outside ASCII is held
      as its UTF-8 bytes.  The characters the code inspects ('#', ' ',
      ',', the newline) are ASCII and never occur inside a multi-byte
      sequence, so stripping, joining and substring search agree with
      Python's.  Lengths and slices count code points ([py_len],
      [py_prefix]).
    - Python integers are [Z]; the two float constants of the code are [Q].
    - Everything an exception handler of the code can catch is an [exn];
      a function that can raise returns a [result].
    - The outside world (file system, HTTP, the language model, the random
      generator, the clock) is a record of oracles that answer from the
      history of events so far.  A computation reads the history and
      yields its result with the events it added, in order. *)

From Stdlib Require Import Strings.String Strings.Ascii Lists.List.
From Stdlib Require Import ZArith.ZArith QArith.QArith Bool.Bool.
From Stdlib Require Import micromega.Lia Init.Byte Numbers.DecimalString.
From Stdlib Require Import Arith.PeanoNat.
Import ListNotations.

#[local] Set Warnings "-register-all".

Open Scope list_scope.
Open Scope string_scope.

(** ** Python text primitives *)

Definition nl : string := String "010"%char EmptyString.

(** [sep.join(parts)] *)
Fixpoint str_join (sep : string) (parts : list string) : string :=
  match parts with
  | [] => ""
  | [p] => p
  | p :: rest => p ++ sep ++ str_join sep rest
  end.

(** [s.lstrip(c)] for a one-character set *)
Fixpoint str_lstrip_char (c : ascii) (s : string) : string :=
  match s with
  | EmptyString => EmptyString
  | String a s' => if Ascii.eqb a c then str_lstrip_char c s' else s
  end.

(** [s.rstrip(c)] for a one-character set *)
Fixpoint str_rstrip_char (c : ascii) (s : string) : string :=
  match s with
  | EmptyString => EmptyString
  | String a s' =>
      match str_rstrip_char c s' with
      | EmptyString => if Ascii.eqb a c then EmptyString else String a EmptyString
      | r => String a r
      end
  end.

(** [s.strip(c)]: Python's [str.strip] removes the characters at both
    ends of the string. *)
Definition str_strip_char (c : ascii) (s : string) : string :=
  str_rstrip_char c (str_lstrip_char c s).

(** [sub in s] *)
Fixpoint str_in (sub s : string) : bool :=
  String.prefix sub s ||
  match s with
  | EmptyString => false
  | String _ s' => str_in sub s'
  end.

(** [str(n)] for an integer *)
Definition str_Z (z : Z) : string := NilZero.string_of_int (Z.to_int z).

(** A byte that starts a code point: every byte but the UTF-8
    continuation bytes 10xxxxxx. *)
Definition starts_code_point (a : ascii) : bool :=
  let n := nat_of_ascii a in (n <? 128)%nat || (192 <=? n)%nat.

(** [len(s)] *)
Fixpoint py_len (s : string) : nat :=
  match s with
  | EmptyString => 0
  | String a s' => (if starts_code_point a then 1 else 0) + py_len s'
  end.

(** [s[:n]]: the bytes before the code point of index [n] *)
Fixpoint py_prefix (n : nat) (s : string) : string :=
  match s with
  | EmptyString => EmptyString
  | String a s' =>
      if starts_code_point a then
        match n with
        | O => EmptyString
        | S n' => String a (py_prefix n' s')
        end
      else String a (py_prefix n s')
  end.

(** [os.path.basename(p)] on a POSIX path *)
Fixpoint basename_acc (acc s : string) : string :=
  match s with
  | EmptyString => acc
  | String a s' =>
      if Ascii.eqb a "/"%char then basename_acc EmptyString s'
      else basename_acc (acc ++ String a EmptyString) s'
  end.

Definition os_path_basename (p : string) : string := basename_acc "" p.

Fixpoint str_last (s : string) : option ascii :=
  match s with
  | EmptyString => None
  | String a EmptyString => Some a
  | String _ s' => str_last s'
  end.

(** [os.path.join(a, b)] on POSIX paths *)
Definition os_path_join (a b : string) : string :=
  if String.prefix "/" b then b
  else match str_last a with
       | None => b
       | Some c => if Ascii.eqb c "/"%char then a ++ b else a ++ "/" ++ b
       end.

(** ** Values, exceptions and results *)

(** A parsed JSON document, as [json.loads] and [response.json()] return
    it.  An object is held as the list of its items; number literals are
    the integers. *)
Inductive json : Type :=
| JNull
| JBool (b : bool)
| JNum (z : Z)
| JStr (s : string)
| JArr (items : list json)
| JObj (items : list (string * json)).

(** Python truth value of a parsed document ([if not container_id]). *)
Definition truthy (j : json) : bool :=
  match j with
  | JNull => false
  | JBool b => b
  | JNum z => negb (z =? 0)%Z
  | JStr s => negb (s =? "")
  | JArr l => match l with [] => false | _ => true end
  | JObj l => match l with [] => false | _ => true end
  end.

Fixpoint assoc_get (k : string) (items : list (string * json)) : option json :=
  match items with
  | [] => None
  | (k', v) :: rest => if k' =? k then Some v else assoc_get k rest
  end.

Definition type_name (j : json) : string :=
  match j with
  | JNull => "NoneType"
  | JBool _ => "bool"
  | JNum _ => "int"
  | JStr _ => "str"
  | JArr _ => "list"
  | JObj _ => "dict"
  end.

(** The body of an HTTP response as the [requests] library presents it. *)
Record http_response : Type := {
  status_code : Z;
  reason : string;
  resp_url : string;
  text : string;
  content : list byte;
  json_body : option json   (* None: the body is not a JSON document *)
}.

Inductive exn_class : Type :=
| FileNotFoundError | OSError | KeyError | IndexError | AttributeError
| TypeError | ValueError | OverflowError
| RequestException | HTTPError | ConnectionError | Timeout | JSONDecodeError
| APIError
| Exception_.

(** An exception object: its class, [str(e)], and the [response]
    attribute that the exceptions of [requests] carry. *)
Record exn : Type := {
  exn_class_of : exn_class;
  exn_msg : string;
  exn_response : option http_response
}.

Definition mk_exn (c : exn_class) (msg : string) : exn :=
  {| exn_class_of := c; exn_msg := msg; exn_response := None |}.

(** [isinstance(e, requests.exceptions.RequestException)] *)
Definition is_RequestException (e : exn) : bool :=
  match exn_class_of e with
  | RequestException | HTTPError | ConnectionError | Timeout
  | JSONDecodeError => true
  | _ => false
  end.

Inductive result (A : Type) : Type :=
| Ok (a : A)
| Err (e : exn).
Arguments Ok {A} a.
Arguments Err {A} e.

Definition is_ok {A} (r : result A) : bool :=
  match r with Ok _ => true | Err _ => false end.

Definition error_of {A} (r : result A) : option exn :=
  match r with Ok _ => None | Err e => Some e end.

(** ** Requests to the three backends *)

Record image_parameters : Type := {
  width : Z;
  height : Z;
  num_inference_steps : Z;
  guidance_scale : Q;
  negative_prompt : string
}.

Record image_payload : Type := {
  inputs : string;
  parameters : image_parameters
}.

Inductive http_request : Type :=
| PostJson (url : string) (headers : list (string * string)) (body : image_payload)
| PostForm (url : string) (data : list (string * json))
| GetParams (url : string) (params : list (string * string)).

Definition request_url (r : http_request) : string :=
  match r with
  | PostJson u _ _ => u
  | PostForm u _ => u
  | GetParams u _ => u
  end.

Inductive content_part : Type :=
| PartText (txt : string)
| PartImage (media_type : string) (data : string).

Inductive message_content : Type :=
| ContentText (txt : string)
| ContentParts (parts : list content_part).

Record claude_request : Type := {
  cr_model : string;
  cr_max_tokens : Z;
  cr_temperature : option Q;
  cr_content : message_content    (* the single user message *)
}.

(** A content block of the reply; only a text block has a [text]
    attribute. *)
Inductive content_block : Type :=
| TextBlock (txt : string)
| OtherBlock.

Record claude_message : Type := {
  msg_content : list content_block
}.

(** ** Events and the world *)

Inductive level : Type := INFO | WARNING | ERROR.

Inductive event : Type :=
| ELog (logger : string) (lvl : level) (msg : string)
| ESleep (secs : Z)
| EHttp (req : http_request) (resp : result http_response)
| EClaude (req : claude_request) (resp : result claude_message)
| ERandom (k : nat)
| EClock (t : Z)
| EUuid (u : string)
| EWrite (path : string) (data : list byte) (r : result unit)
| ECall (fn : string) (body : list event) (raised : option exn).

Definition history : Type := list event.

(** The collaborators outside the program.  Each answers from the
    history, so that the same question can be answered differently at
    different moments. *)
Record World : Type := {
  fs_exists : history -> string -> bool;                  (* os.path.exists *)
  fs_read : history -> string -> result (list byte);      (* open(p,"rb").read() *)
  fs_write : history -> string -> list byte -> result unit; (* open(p,"wb").write(b) *)
  http : history -> http_request -> result http_response; (* requests.post / get *)
  claude : history -> claude_request -> result claude_message; (* client.messages.create *)
  randbelow : history -> nat -> nat;                      (* random._randbelow *)
  clock_now : history -> Z;                               (* datetime.now().timestamp() *)
  uuid4 : history -> string;                              (* str(uuid.uuid4()) *)
  fromtimestamp_error : Z -> option exn;                  (* datetime.fromtimestamp(t) out of range *)
  strftime_local : string -> Z -> string                  (* d.strftime(f), d held as its timestamp *)
}.

(** Library functions on text that depend on the Unicode tables or on a
    mini-language of their own; the development is parametric in them. *)
Class PyText : Type := {
  str_lower : string -> string;                           (* s.lower() *)
  str_strip : string -> string;                           (* s.strip() *)
  str_repr : string -> string;                            (* repr(s) *)
  str_format : string -> list (string * string) -> result string; (* s.format with keyword arguments *)
  b64encode : list byte -> string                         (* base64.b64encode(b).decode() *)
}.

(** ** The monad of computations *)

Definition M (A : Type) : Type := history -> result A * list event.

Definition ret {A} (a : A) : M A := fun _ => (Ok a, []).

Definition raise {A} (e : exn) : M A := fun _ => (Err e, []).

Definition bind {A B} (m : M A) (k : A -> M B) : M B :=
  fun h =>
    match m h with
    | (Ok a, es) => let (r, es') := k a (h ++ es)%list in (r, (es ++ es')%list)
    | (Err e, es) => (Err e, es)
    end.

(** [try: m  except Exception as e: handler e] *)
Definition try_except {A} (m : M A) (handler : exn -> M A) : M A :=
  fun h =>
    match m h with
    | (Ok a, es) => (Ok a, es)
    | (Err e, es) => let (r, es') := handler e (h ++ es)%list in (r, (es ++ es')%list)
    end.

Definition emit (ev : event) : M unit := fun _ => (Ok tt, [ev]).

(** A call kept as one node of the trace: the events of the callee and
    how it ended. *)
Definition call {A} (fn : string) (m : M A) : M A :=
  fun h => let (r, es) := m h in (r, [ECall fn es (error_of r)]).

Notation "x <- m ;; k" := (bind m (fun x => k))
  (at level 61, m at next level, right associativity).
Notation "m ;;; k" := (bind m (fun _ => k))
  (at level 61, right associativity).

Definition lift {A} (r : result A) : M A := fun _ => (r, []).

Definition log (logger : string) (lvl : level) (msg : string) : M unit :=
  emit (ELog logger lvl msg).

Fixpoint for_each {A} (xs : list A) (body : A -> M unit) : M unit :=
  match xs with
  | [] => ret tt
  | x :: rest => body x ;;; for_each rest body
  end.

(** [range(n)] *)
Definition range (n : Z) : list Z := map Z.of_nat (seq 0 (Z.to_nat n)).

(** ** Library calls *)

Module Py.
Section Calls.
Context {T : PyText} (w : World).

  (** The longest sleep, in seconds: CPython holds a duration as a
      signed 64-bit count of nanoseconds. *)
Definition sleep_limit : Z := 9223372036.

  (** [time.sleep(secs)] for an integer: a duration that does not fit
      the clock raises OverflowError, and a negative one that fits
      raises ValueError, both before any sleeping. *)
Definition time_sleep (secs : Z) : M unit :=
    if ((secs <? - sleep_limit) || (sleep_limit <? secs))%Z
    then raise (mk_exn OverflowError
                  "timestamp too large to convert to C _PyTime_t")
    else if (secs <? 0)%Z
    then raise (mk_exn ValueError "sleep length must be non-negative")
    else emit (ESleep secs).

Definition requests_post (req : http_request) : M http_response :=
    fun h => let r := http w h req in (r, [EHttp req r]).

Definition requests_get (req : http_request) : M http_response :=
    fun h => let r := http w h req in (r, [EHttp req r]).

Definition messages_create (req : claude_request) : M claude_message :=
    fun h => let r := claude w h req in (r, [EClaude req r]).

  (** [random.choice(seq)] *)
Definition random_choice (l : list string) : M string :=
    match l with
    | [] => raise (mk_exn IndexError "Cannot choose from an empty sequence")
    | x :: _ =>
        fun h => let k := (randbelow w h (length l) mod length l)%nat in
                 (Ok (nth k l x), [ERandom k])
    end.

Definition os_path_exists (p : string) : M bool :=
    fun h => (Ok (fs_exists w h p), []).

Definition read_binary (p : string) : M (list byte) :=
    fun h => (fs_read w h p, []).

Definition write_binary (p : string) (data : list byte) : M unit :=
    fun h => let r := fs_write w h p data in (r, [EWrite p data r]).

  (** [datetime.now()], held as its timestamp in seconds *)
Definition datetime_now : M Z :=
    fun h => let t := clock_now w h in (Ok t, [EClock t]).

Definition datetime_fromtimestamp (t : Z) : M Z :=
    match fromtimestamp_error w t with
    | Some e => raise e
    | None => ret t
    end.

Definition strftime (d : Z) (fmt : string) : string := strftime_local w fmt d.

Definition uuid4_str : M string :=
    fun h => let u := uuid4 w h in (Ok u, [EUuid u]).

  (** [response.raise_for_status()] *)
Definition raise_for_status (r : http_response) : M unit :=
    let s := status_code r in
    if ((400 <=? s) && (s <? 500))%Z then
      raise {| exn_class_of := HTTPError;
               exn_msg := str_Z s ++ " Client Error: " ++ reason r
                          ++ " for url: " ++ resp_url r;
               exn_response := Some r |}
    else if ((500 <=? s) && (s <? 600))%Z then
      raise {| exn_class_of := HTTPError;
               exn_msg := str_Z s ++ " Server Error: " ++ reason r
                          ++ " for url: " ++ resp_url r;
               exn_response := Some r |}
    else ret tt.

  (** [response.json()] *)
Definition response_json (r : http_response) : M json :=
    match json_body r with
    | Some j => ret j
    | None => raise (mk_exn JSONDecodeError
                       "Expecting value: line 1 column 1 (char 0)")
    end.

  (** [d.get(k, default)]; only a dict has the method. *)
Definition dict_get (d : json) (k : string) (default : json) : M json :=
    match d with
    | JObj items =>
        ret (match assoc_get k items with Some v => v | None => default end)
    | _ => raise (mk_exn AttributeError
                    ("'" ++ type_name d ++ "' object has no attribute 'get'"))
    end.

  (** [repr(j)] and [str(j)] of a parsed document, as an f-string
      renders it. *)
Fixpoint repr_json (j : json) : string :=
    match j with
    | JNull => "None"
    | JBool true => "True"
    | JBool false => "False"
    | JNum z => str_Z z
    | JStr s => str_repr s
    | JArr l => "[" ++ str_join ", " (map repr_json l) ++ "]"
    | JObj l =>
        "{" ++ str_join ", "
                 (map (fun kv => match kv with
                                 | (k, v) => str_repr k ++ ": " ++ repr_json v
                                 end) l) ++ "}"
    end.

Definition py_str (j : json) : string :=
    match j with
    | JStr s => s
    | _ => repr_json j
    end.

  (** [message.content[0].text] *)
Definition first_block_text (m : claude_message) : M string :=
    match msg_content m with
    | [] => raise (mk_exn IndexError "list index out of range")
    | TextBlock s :: _ => ret s
    | OtherBlock :: _ =>
        raise (mk_exn AttributeError "object has no attribute 'text'")
    end.
End Calls.
End Py.

(** ** image_generator.py *)

Module ImageGenerator.
Record t : Type := {
    model_name : string;
    api_key : string;
    style : string;
    api_url : string;
    headers : list (string * string)
  }.

Definition logger : string := "src.image_generator".

Section Methods.
Context {T : PyText} (w : World).

Definition init (model_name hf_api_key style : string) : M t :=
    let self := {| model_name := model_name;
                   api_key := hf_api_key;
                   style := style;
                   api_url := "https://api-inference.huggingface.co/models/"
                              ++ model_name;
                   headers := [("Authorization", "Bearer " ++ hf_api_key)] |} in
    log logger INFO ("ImageGenerator initialized with model: " ++ model_name) ;;;
    ret self.

Definition generate_image (self : t) (prompt output_dir : string)
      (width height : Z) : M string :=
    let full_prompt :=
      if negb (str_in (str_lower (style self)) (str_lower prompt))
      then prompt ++ ", " ++ style self
      else prompt in
    log logger INFO ("Generating image with prompt: " ++ full_prompt) ;;;
    try_except
      (let payload :=
         {| inputs := full_prompt;
            parameters := {| width := width;
                             height := height;
                             num_inference_steps := 50;
                             guidance_scale := 15 # 2;
                             negative_prompt := "low quality, blurry, distorted" |} |} in
       response <- Py.requests_post w (PostJson (api_url self) (headers self) payload) ;;
       Py.raise_for_status response ;;;
       now <- Py.datetime_now w ;;
       let timestamp := Py.strftime w now "%Y%m%d_%H%M%S" in
       u <- Py.uuid4_str w ;;
       let unique_id := py_prefix 8 u in
       let filename := "generated_image_" ++ timestamp ++ "_" ++ unique_id ++ ".png" in
       let file_path := os_path_join output_dir filename in
       Py.write_binary w file_path (content response) ;;;
       log logger INFO ("Image generated successfully: " ++ file_path) ;;;
       ret file_path)
      (fun e =>
         if is_RequestException e then
           log logger ERROR ("API request failed: " ++ exn_msg e) ;;;
           match exn_response e with
           | Some r =>
               log logger ERROR ("Response status: " ++ str_Z (status_code r)) ;;;
               log logger ERROR ("Response text: " ++ text r)
           | None => ret tt
           end ;;;
           raise e
         else
           log logger ERROR ("Failed to generate image: " ++ exn_msg e) ;;;
           raise e).

Definition change_model (self : t) (new_model_name : string) : M t :=
    let self' := {| model_name := new_model_name;
                    api_key := api_key self;
                    style := style self;
                    api_url := "https://api-inference.huggingface.co/models/"
                               ++ new_model_name;
                    headers := headers self |} in
    log logger INFO ("Model changed to: " ++ new_model_name) ;;;
    ret self'.

Definition change_style (self : t) (new_style : string) : M t :=
    let self' := {| model_name := model_name self;
                    api_key := api_key self;
                    style := new_style;
                    api_url := api_url self;
                    headers := headers self |} in
    log logger INFO ("Style changed to: " ++ new_style) ;;;
    ret self'.
End Methods.
End ImageGenerator.

(** ** description_generator.py *)

Module DescriptionGenerator.
Record t : Type := {
    prompt_template : string;
    api_key : string;
    model : string;
    openers : list string;
    closers : list string
  }.

Definition logger : string := "src.description_generator".

Definition default_model : string := "claude-3-opus-20240229".

Definition the_openers : list string :=
    [ "✨ Check this out!";
      "🔥 Just created something amazing!";
      "💫 Excited to share this with you all!";
      "🌈 New day, new creation!";
      "🎨 Art in motion...";
      "👀 Take a look at my latest work!" ].

Definition the_closers : list string :=
    [ "What do you think?";
      "Let me know your thoughts in the comments!";
      "Double tap if you love it!";
      "Share if this resonates with you!";
      "Tag someone who needs to see this!";
      "Save for inspiration later!" ].

Section Methods.
Context {T : PyText} (w : World).

Definition init (prompt_template anthropic_api_key model : string) : M t :=
    let self := {| prompt_template := prompt_template;
                   api_key := anthropic_api_key;
                   model := model;
                   openers := the_openers;
                   closers := the_closers |} in
    log logger INFO ("DescriptionGenerator initialized with Claude model: " ++ model) ;;;
    ret self.

Definition _get_image_description (self : t) (image_path : string) : M string :=
    try_except
      (img <- Py.read_binary w image_path ;;
       let image_data := b64encode img in
       message <- Py.messages_create w
         {| cr_model := model self;
            cr_max_tokens := 300;
            cr_temperature := None;
            cr_content := ContentParts
              [ PartText "Describe this image in detail for use in an Instagram caption.";
                PartImage "image/png" image_data ] |} ;;
       description <- Py.first_block_text message ;;
       ret description)
      (fun e =>
         log logger WARNING
           ("Failed to get image description from Claude: " ++ exn_msg e) ;;;
         ret "An amazing image").

  (** The body of the [try] of [generate_description]. *)
Definition generate_description_try (self : t) (prompt : string)
      (image_path : option string) (max_length : Z) : M string :=
    image_desc <-
      match image_path with
      | Some p =>
          if negb (p =? "") then
            present <- Py.os_path_exists w p ;;
            if (present : bool) then
              d <- _get_image_description self p ;;
              log logger INFO "Image description obtained from Claude" ;;;
              ret d
            else ret "an amazing image"
          else ret "an amazing image"
      | None => ret "an amazing image"
      end ;;
    opener <- Py.random_choice w (openers self) ;;
    closer <- Py.random_choice w (closers self) ;;
    formatted_prompt <-
      lift (str_format (prompt_template self)
              [ ("image_prompt", prompt);
                ("image_description", image_desc);
                ("opener", opener);
                ("closer", closer) ]) ;;
    message <- Py.messages_create w
      {| cr_model := model self;
         cr_max_tokens := max_length;
         cr_temperature := Some (8 # 10);
         cr_content := ContentText formatted_prompt |} ;;
    txt <- Py.first_block_text message ;;
    let description := str_strip txt in
    log logger INFO
      ("Description generated successfully ("
       ++ str_Z (Z.of_nat (py_len description)) ++ " chars)") ;;;
    ret description.

Definition generate_description (self : t) (prompt : string)
      (image_path : option string) (max_length : Z) : M string :=
    log logger INFO ("Generating description for prompt: " ++ prompt) ;;;
    try_except
      (generate_description_try self prompt image_path max_length)
      (fun e =>
         log logger ERROR ("Failed to generate description: " ++ exn_msg e) ;;;
         opener <- Py.random_choice w (openers self) ;;
         closer <- Py.random_choice w (closers self) ;;
         ret (opener ++ " " ++ prompt ++ " " ++ closer)).

Definition add_hashtags (self : t) (description : string)
      (hashtags : list string) : string :=
    let formatted_hashtags :=
      map (fun tag => "#" ++ str_strip_char "#" tag) hashtags in
    let hashtag_text := str_join " " formatted_hashtags in
    let updated_description := description ++ nl ++ nl ++ hashtag_text in
    updated_description.

Definition change_model (self : t) (new_model : string) : M t :=
    let self' := {| prompt_template := prompt_template self;
                    api_key := api_key self;
                    model := new_model;
                    openers := openers self;
                    closers := closers self |} in
    log logger INFO ("Claude model changed to: " ++ new_model) ;;;
    ret self'.
End Methods.
End DescriptionGenerator.

(** ** instagram_poster.py *)

Module InstagramPoster.
Record t : Type := {
    access_token : string;
    user_id : string;
    api_version : string;
    base_url : string
  }.

Definition logger : string := "src.instagram_poster".

Section Methods.
Context {T : PyText} (w : World).

Definition init (access_token user_id : string) : M t :=
    let api_version := "v18.0" in
    let self := {| access_token := access_token;
                   user_id := user_id;
                   api_version := api_version;
                   base_url := "https://graph.facebook.com/" ++ api_version |} in
    log logger INFO ("InstagramPoster initialized for user ID: " ++ user_id) ;;;
    ret self.

Definition media_url (self : t) : string :=
    base_url self ++ "/" ++ user_id self ++ "/media".

Definition media_publish_url (self : t) : string :=
    base_url self ++ "/" ++ user_id self ++ "/media_publish".

Definition _upload_image_to_temporary_storage (self : t)
      (image_path : string) : M string :=
    log logger INFO ("In a real implementation, would upload " ++ image_path
                     ++ " to obtain a public URL") ;;;
    ret ("https://example.com/temp_images/" ++ os_path_basename image_path).

Definition _create_media_container (self : t)
      (image_path caption : string) : M json :=
    let url := media_url self in
    image_url <- _upload_image_to_temporary_storage self image_path ;;
    let params := [ ("image_url", JStr image_url);
                    ("caption", JStr caption);
                    ("access_token", JStr (access_token self)) ] in
    response <- Py.requests_post w (PostForm url params) ;;
    if negb (status_code response =? 200)%Z then
      let error_msg := "Failed to create media container: " ++ text response in
      log logger ERROR error_msg ;;;
      raise (mk_exn Exception_ error_msg)
    else
      result <- Py.response_json response ;;
      container_id <- Py.dict_get result "id" JNull ;;
      if negb (truthy container_id) then
        let error_msg := "Container ID not found in response" in
        log logger ERROR error_msg ;;;
        raise (mk_exn Exception_ error_msg)
      else
        log logger INFO ("Media container created: " ++ Py.py_str container_id) ;;;
        ret container_id.

Definition _publish_container (self : t) (container_id : json) : M json :=
    let url := media_publish_url self in
    let params := [ ("creation_id", container_id);
                    ("access_token", JStr (access_token self)) ] in
    Py.time_sleep 5 ;;;
    response <- Py.requests_post w (PostForm url params) ;;
    if negb (status_code response =? 200)%Z then
      let error_msg := "Failed to publish media: " ++ text response in
      log logger ERROR error_msg ;;;
      raise (mk_exn Exception_ error_msg)
    else
      result <- Py.response_json response ;;
      log logger INFO ("Media published successfully: " ++ Py.py_str result) ;;;
      ret result.

  (** Lines 53-58 of [post]: the caption that is sent.  [None] and the
      empty list are both false in the test [if hashtags:]. *)
Definition full_caption (caption : string)
      (hashtags : option (list string)) : string :=
    match hashtags with
    | Some ((_ :: _) as tags) =>
        let formatted_hashtags :=
          str_join " " (map (fun tag => "#" ++ str_strip_char "#" tag) tags) in
        caption ++ nl ++ nl ++ formatted_hashtags
    | _ => caption
    end.

Definition post (self : t) (image_path caption : string)
      (hashtags : option (list string)) : M json :=
    present <- Py.os_path_exists w image_path ;;
    if negb present then
      let error_msg := "Image file not found: " ++ image_path in
      log logger ERROR error_msg ;;;
      raise (mk_exn FileNotFoundError error_msg)
    else
      let full_caption := full_caption caption hashtags in
      log logger INFO ("Preparing to post image: " ++ image_path) ;;;
      log logger INFO ("Caption length: "
                       ++ str_Z (Z.of_nat (py_len full_caption))
                       ++ " characters") ;;;
      try_except
        (container_id <- _create_media_container self image_path full_caption ;;
         publish_response <- _publish_container self container_id ;;
         post_id <- Py.dict_get publish_response "id" (JStr "Unknown") ;;
         log logger INFO ("Successfully posted to Instagram. Post ID: "
                          ++ Py.py_str post_id) ;;;
         ret publish_response)
        (fun e =>
           log logger ERROR ("Failed to post to Instagram: " ++ exn_msg e) ;;;
           raise e).

Definition get_account_info (self : t) : M json :=
    let url := base_url self ++ "/" ++ user_id self in
    let params :=
      [ ("fields", "username,name,profile_picture_url,media_count,followers_count,follows_count");
        ("access_token", access_token self) ] in
    response <- Py.requests_get w (GetParams url params) ;;
    if negb (status_code response =? 200)%Z then
      let error_msg := "Failed to get account info: " ++ text response in
      log logger ERROR error_msg ;;;
      raise (mk_exn Exception_ error_msg)
    else
      result <- Py.response_json response ;;
      username <- Py.dict_get result "username" (JStr "Unknown") ;;
      log logger INFO ("Retrieved account info for: " ++ Py.py_str username) ;;;
      ret result.
End Methods.
End InstagramPoster.

(** ** main.py *)

Module Main.
  (** The entries of the loaded configuration that the two workflows
      read.  [scheduled_posts_count] is read with [.get(..., 5)] and may
      be absent. *)
Record Config : Type := {
    default_prompt : string;             (* image_generator.default_prompt *)
    default_hashtags : list string;      (* instagram_poster.default_hashtags *)
    post_frequency_hours : Z;            (* instagram_poster.post_frequency_hours *)
    scheduled_posts_count : option Z     (* instagram_poster.scheduled_posts_count *)
  }.

Definition logger : string := "__main__".

Section Workflows.
Context {T : PyText} (w : World).

Definition single_post_workflow (image_gen : ImageGenerator.t)
      (desc_gen : DescriptionGenerator.t) (insta_poster : InstagramPoster.t)
      (config : Config) (output_dir : string) : M json :=
    try_except
      (let prompt := default_prompt config in
       image_path <- ImageGenerator.generate_image w image_gen prompt output_dir
                       1024 1024 ;;
       log logger INFO ("Image generated: " ++ image_path) ;;;
       description <- DescriptionGenerator.generate_description w desc_gen prompt
                        (Some image_path) 2000 ;;
       log logger INFO ("Description generated: " ++ py_prefix 50 description
                        ++ "...") ;;;
       result <- InstagramPoster.post w insta_poster image_path description
                   (Some (default_hashtags config)) ;;
       log logger INFO ("Posted to Instagram successfully: " ++ Py.py_str result) ;;;
       ret result)
      (fun e =>
         log logger ERROR ("Error in single post workflow: " ++ exn_msg e) ;;;
         raise e).

Definition total_posts_of (config : Config) : Z :=
    match scheduled_posts_count config with
    | Some n => n
    | None => 5
    end.

  (** One turn of the loop of [scheduled_workflow], lines 147-165.  The
      call of [single_post_workflow] is kept as one node of the trace. *)
Definition scheduled_iteration (image_gen : ImageGenerator.t)
      (desc_gen : DescriptionGenerator.t) (insta_poster : InstagramPoster.t)
      (config : Config) (output_dir : string)
      (post_frequency total_posts i : Z) : M unit :=
    try_except
      (log logger INFO ("Executing scheduled post " ++ str_Z (i + 1) ++ "/"
                        ++ str_Z total_posts) ;;;
       call "single_post_workflow"
         (single_post_workflow image_gen desc_gen insta_poster config output_dir) ;;;
       if (i <? total_posts - 1)%Z then
         let sleep_seconds := (post_frequency * 3600)%Z in
         now <- Py.datetime_now w ;;
         let next_post_time := (now + sleep_seconds)%Z in
         d <- Py.datetime_fromtimestamp w next_post_time ;;
         let next_post_readable := Py.strftime w d "%Y-%m-%d %H:%M:%S" in
         log logger INFO ("Next post scheduled at " ++ next_post_readable
                          ++ ", sleeping for " ++ str_Z post_frequency
                          ++ " hours") ;;;
         Py.time_sleep sleep_seconds
       else ret tt)
      (fun e =>
         log logger ERROR ("Error in post " ++ str_Z (i + 1) ++ ": " ++ exn_msg e) ;;;
         ret tt).

Definition scheduled_workflow (image_gen : ImageGenerator.t)
      (desc_gen : DescriptionGenerator.t) (insta_poster : InstagramPoster.t)
      (config : Config) (output_dir : string) : M unit :=
    let post_frequency := post_frequency_hours config in
    let total_posts := total_posts_of config in
    log logger INFO ("Starting scheduled workflow. Posts: " ++ str_Z total_posts
                     ++ ", Frequency: " ++ str_Z post_frequency ++ "h") ;;;
    for_each (range total_posts)
      (scheduled_iteration image_gen desc_gen insta_poster config output_dir
         post_frequency total_posts).
End Workflows.
End Main.

(** ** Observations on a trace *)

(** The single-post runs a trace holds, each with how it ended. *)
Fixpoint attempts (es : list event) : list (option exn) :=
  match es with
  | [] => []
  | ECall fn _ r :: rest =>
      if fn =? "single_post_workflow" then r :: attempts rest
      else attempts rest
  | _ :: rest => attempts rest
  end.

Definition failed_attempts (es : list event) : nat :=
  length (filter (fun r => match r with Some _ => true | None => false end)
                 (attempts es)).

(** The error records written by [logger]. *)
Fixpoint errors_logged (logger : string) (es : list event) : list string :=
  match es with
  | [] => []
  | ELog l ERROR msg :: rest =>
      if l =? logger then msg :: errors_logged logger rest
      else errors_logged logger rest
  | _ :: rest => errors_logged logger rest
  end.

(** The records that [logger] writes at level ERROR right after a failed
    single-post run, one for each such run that has one. *)
Fixpoint records_after_failures (logger : string) (es : list event)
  : list string :=
  match es with
  | [] => []
  | ECall fn _ (Some _) :: rest =>
      if fn =? "single_post_workflow" then
        match rest with
        | ELog l ERROR msg :: _ =>
            if l =? logger then msg :: records_after_failures logger rest
            else records_after_failures logger rest
        | _ => records_after_failures logger rest
        end
      else records_after_failures logger rest
  | _ :: rest => records_after_failures logger rest
  end.

(** A call that ended by raising. *)
Definition is_failed_call (e : event) : bool :=
  match e with
  | ECall _ _ (Some _) => true
  | _ => false
  end.

(** The sleeps of a trace, not those inside its calls. *)
Fixpoint sleeps (es : list event) : list Z :=
  match es with
  | [] => []
  | ESleep s :: rest => s :: sleeps rest
  | _ :: rest => sleeps rest
  end.

(** The requests sent to [url], in order. *)
Fixpoint requests_to (url : string) (es : list event) : list http_request :=
  match es with
  | [] => []
  | EHttp req _ :: rest =>
      if request_url req =? url then req :: requests_to url rest
      else requests_to url rest
  | _ :: rest => requests_to url rest
  end.

(** Every request of a trace. *)
Fixpoint requests_sent (es : list event) : list http_request :=
  match es with
  | [] => []
  | EHttp req _ :: rest => req :: requests_sent rest
  | _ :: rest => requests_sent rest
  end.

(** The identifier that a reply to a container-creation request gives,
    when the creation step succeeds: status 200, a JSON object, a true
    value under "id". *)
Definition reply_id (r : result http_response) : option json :=
  match r with
  | Err _ => None
  | Ok resp =>
      if (status_code resp =? 200)%Z then
        match json_body resp with
        | Some (JObj items) =>
            match assoc_get "id" items with
            | Some v => if truthy v then Some v else None
            | None => None
            end
        | _ => None
        end
      else None
  end.

(** The identifiers that the replies to the requests sent to [url]
    give. *)
Fixpoint created_ids (url : string) (es : list event) : list json :=
  match es with
  | [] => []
  | EHttp req resp :: rest =>
      if request_url req =? url then
        match reply_id resp with
        | Some c => c :: created_ids url rest
        | None => created_ids url rest
        end
      else created_ids url rest
  | _ :: rest => created_ids url rest
  end.

(** The identifiers named as "creation_id" by the requests sent to
    [url]. *)
Fixpoint published_ids (url : string) (es : list event) : list json :=
  match es with
  | [] => []
  | EHttp (PostForm u data) _ :: rest =>
      if u =? url then
        match assoc_get "creation_id" data with
        | Some c => c :: published_ids url rest
        | None => published_ids url rest
        end
      else published_ids url rest
  | _ :: rest => published_ids url rest
  end.

(** ** Text that is ASCII

    An instance of the text library for running the definitions on
    concrete inputs: letters are the ASCII letters, white space is the
    ASCII white space, a replacement field of a template is a plain
    name. *)

Module AsciiText.
Definition lower_char (a : ascii) : ascii :=
    let n := nat_of_ascii a in
    if ((65 <=? n) && (n <=? 90))%nat then ascii_of_nat (n + 32) else a.

Fixpoint lower (s : string) : string :=
    match s with
    | EmptyString => EmptyString
    | String a s' => String (lower_char a) (lower s')
    end.

Definition is_space (a : ascii) : bool :=
    let n := nat_of_ascii a in
    ((9 <=? n) && (n <=? 13))%nat || (n =? 32)%nat.

Fixpoint lstrip (s : string) : string :=
    match s with
    | EmptyString => EmptyString
    | String a s' => if is_space a then lstrip s' else s
    end.

Fixpoint rstrip (s : string) : string :=
    match s with
    | EmptyString => EmptyString
    | String a s' =>
        match rstrip s' with
        | EmptyString => if is_space a then EmptyString else String a EmptyString
        | r => String a r
        end
    end.

Definition strip (s : string) : string := rstrip (lstrip s).

Definition repr (s : string) : string := "'" ++ s ++ "'".

Fixpoint lookup (k : string) (kw : list (string * string)) : option string :=
    match kw with
    | [] => None
    | (k', v) :: rest => if k' =? k then Some v else lookup k rest
    end.

  (** [field] is the name being read inside braces, if any. *)
Fixpoint format_from (s : string) (field : option string)
      (kw : list (string * string)) : result string :=
    match s with
    | EmptyString =>
        match field with
        | None => Ok EmptyString
        | Some _ => Err (mk_exn ValueError "expected '}' before end of string")
        end
    | String c s' =>
        match field with
        | Some name =>
            if Ascii.eqb c "}"%char then
              match lookup name kw with
              | Some v =>
                  match format_from s' None kw with
                  | Ok r => Ok (v ++ r)
                  | Err e => Err e
                  end
              | None => Err (mk_exn KeyError (repr name))
              end
            else format_from s' (Some (name ++ String c EmptyString)) kw
        | None =>
            if Ascii.eqb c "{"%char then
              match s' with
              | String "{"%char s'' =>
                  match format_from s'' None kw with
                  | Ok r => Ok (String "{"%char r)
                  | Err e => Err e
                  end
              | _ => format_from s' (Some EmptyString) kw
              end
            else if Ascii.eqb c "}"%char then
              match s' with
              | String "}"%char s'' =>
                  match format_from s'' None kw with
                  | Ok r => Ok (String "}"%char r)
                  | Err e => Err e
                  end
              | _ => Err (mk_exn ValueError
                            "Single '}' encountered in format string")
              end
            else
              match format_from s' None kw with
              | Ok r => Ok (String c r)
              | Err e => Err e
              end
        end
    end.

Definition format (s : string) (kw : list (string * string)) : result string :=
    format_from s None kw.

Definition alphabet : string :=
    "ABCDEFGHIJKLMNOPQRSTUVWXYZabcdefghijklmnopqrstuvwxyz0123456789+/".

Definition sextet (n : N) : string :=
    match String.get (N.to_nat (n mod 64)) alphabet with
    | Some c => String c EmptyString
    | None => EmptyString
    end.

Fixpoint base64 (l : list byte) : string :=
    match l with
    | [] => EmptyString
    | [a] =>
        let n := (Byte.to_N a * 65536)%N in
        sextet (n / 262144) ++ sextet (n / 4096) ++ "=="
    | [a; b] =>
        let n := (Byte.to_N a * 65536 + Byte.to_N b * 256)%N in
        sextet (n / 262144) ++ sextet (n / 4096) ++ sextet (n / 64) ++ "="
    | a :: b :: c :: rest =>
        let n := (Byte.to_N a * 65536 + Byte.to_N b * 256 + Byte.to_N c)%N in
        sextet (n / 262144) ++ sextet (n / 4096) ++ sextet (n / 64)
        ++ sextet n ++ base64 rest
    end.

#[export] Instance text : PyText := {|
    str_lower := lower;
    str_strip := strip;
    str_repr := repr;
    str_format := format;
    b64encode := base64
  |}.
End AsciiText.

(** ** A scripted world

    A world for running the program on concrete inputs.  Files hold what
    was written to them, the publishing backend numbers its containers
    by the length of the history, the clock advances with the sleeps,
    and the image backend refuses the connection during the single-post
    runs that [failing] selects (counted from 0). *)

Module Demo.
Definition png : list byte := [x89; x50; x4e; x47].

Definition written (h : history) (p : string) : bool :=
    existsb (fun e => match e with
                      | EWrite q _ (Ok _) => q =? p
                      | _ => false
                      end) h.

Definition ok_response (u : string) (body : list byte) (j : option json)
    : http_response :=
    {| status_code := 200; reason := "OK"; resp_url := u; text := "";
       content := body; json_body := j |}.

Definition backend (failing : nat -> bool) (h : history)
      (req : http_request) : result http_response :=
    match req with
    | PostJson u _ _ =>
        if failing (length (attempts h))
        then Err (mk_exn ConnectionError "Connection refused")
        else Ok (ok_response u png None)
    | PostForm u data =>
        match assoc_get "creation_id" data with
        | Some _ =>
            Ok (ok_response u [] (Some (JObj [("id", JStr "post")])))
        | None =>
            Ok (ok_response u []
                  (Some (JObj [("id", JStr ("c" ++ str_Z (Z.of_nat (length h))))])))
        end
    | GetParams u _ =>
        Ok (ok_response u [] (Some (JObj [("username", JStr "demo")])))
    end.

Definition world (failing : nat -> bool) : World :=
    {| fs_exists := written;
       fs_read := fun h p =>
         if written h p then Ok png
         else Err (mk_exn FileNotFoundError ("No such file or directory: " ++ p));
       fs_write := fun _ _ _ => Ok tt;
       http := backend failing;
       claude := fun _ _ => Ok {| msg_content := [TextBlock " A caption. "] |};
       randbelow := fun h n => length h;
       clock_now := fun h => (1700000000 + fold_right Z.add 0 (sleeps h))%Z;
       uuid4 := fun _ => "123e4567-e89b-12d3-a456-426614174000";
       fromtimestamp_error := fun _ => None;
       strftime_local := fun _ t => str_Z t |}.

  (** A world whose language-model backend raises on every call. *)
Definition world_claude_down : World :=
    {| fs_exists := written;
       fs_read := fun h p =>
         if written h p then Ok png
         else Err (mk_exn FileNotFoundError ("No such file or directory: " ++ p));
       fs_write := fun _ _ _ => Ok tt;
       http := backend (fun _ => false);
       claude := fun _ _ => Err (mk_exn APIError "Connection error.");
       randbelow := fun h n => length h;
       clock_now := fun h => 1700000000%Z;
       uuid4 := fun _ => "123e4567-e89b-12d3-a456-426614174000";
       fromtimestamp_error := fun _ => None;
       strftime_local := fun _ t => str_Z t |}.

  (** A world whose publishing backend gives every container the same
      identifier. *)
Definition world_same_id : World :=
    {| fs_exists := written;
       fs_read := fun h p =>
         if written h p then Ok png
         else Err (mk_exn FileNotFoundError ("No such file or directory: " ++ p));
       fs_write := fun _ _ _ => Ok tt;
       http := fun _ req =>
         Ok (ok_response (request_url req) [] (Some (JObj [("id", JStr "c")])));
       claude := fun _ _ => Ok {| msg_content := [TextBlock " A caption. "] |};
       randbelow := fun h n => length h;
       clock_now := fun h => 1700000000%Z;
       uuid4 := fun _ => "123e4567-e89b-12d3-a456-426614174000";
       fromtimestamp_error := fun _ => None;
       strftime_local := fun _ t => str_Z t |}.

Definition image_gen : ImageGenerator.t :=
    {| ImageGenerator.model_name := "stabilityai/stable-diffusion-xl-base-1.0";
       ImageGenerator.api_key := "hf";
       ImageGenerator.style := "digital art";
       ImageGenerator.api_url :=
         "https://api-inference.huggingface.co/models/stabilityai/stable-diffusion-xl-base-1.0";
       ImageGenerator.headers := [("Authorization", "Bearer hf")] |}.

Definition desc_gen : DescriptionGenerator.t :=
    {| DescriptionGenerator.prompt_template :=
         "{opener} Write a caption for {image_prompt}: {image_description} {closer}";
       DescriptionGenerator.api_key := "sk";
       DescriptionGenerator.model := DescriptionGenerator.default_model;
       DescriptionGenerator.openers := DescriptionGenerator.the_openers;
       DescriptionGenerator.closers := DescriptionGenerator.the_closers |}.

Definition insta_poster : InstagramPoster.t :=
    {| InstagramPoster.access_token := "tok";
       InstagramPoster.user_id := "1789";
       InstagramPoster.api_version := "v18.0";
       InstagramPoster.base_url := "https://graph.facebook.com/v18.0" |}.

Definition config (n : Z) : Main.Config :=
    {| Main.default_prompt := "a lighthouse at dawn";
       Main.default_hashtags := ["#art"; "ai"];
       Main.post_frequency_hours := 24;
       Main.scheduled_posts_count := Some n |}.

  (** A history in which the image "img.png" was written. *)
Definition h_img : history := [EWrite "img.png" png (Ok tt)].

Definition run_post (hashtags : option (list string)) (h : history)
    : result json * list event :=
    InstagramPoster.post (T := AsciiText.text) (world (fun _ => false))
      insta_poster "img.png" "A caption." hashtags h.


  (** The second of the runs fails. *)
Definition second_fails (k : nat) : bool := (k =? 1)%nat.

Definition run_scheduled (failing : nat -> bool) (n : Z)
    : result unit * list event :=
    Main.scheduled_workflow (T := AsciiText.text) (world failing)
      image_gen desc_gen insta_poster (config n) "output" [].
End Demo.

(** ** The words of the specification *)

(** "[sub] is a substring of [s]" *)
Definition is_substring (sub s : string) : Prop :=
  exists a b, s = a ++ sub ++ b.

Definition str_first (s : string) : option ascii :=
  match s with
  | EmptyString => None
  | String a _ => Some a
  end.

(** [addHashtags] as section 4.2 words it: only the leading '#'
    characters of a tag are stripped. *)
Definition add_hashtags_spec (caption : string) (tags : list string) : string :=
  caption ++ nl ++ nl
  ++ str_join " " (map (fun tag => "#" ++ str_lstrip_char "#" tag) tags).

(** The events of one run of [post], named. *)
Definition upload_log (path : string) : event :=
  ELog InstagramPoster.logger INFO
    ("In a real implementation, would upload " ++ path
     ++ " to obtain a public URL").

Definition creation_request (self : InstagramPoster.t)
    (path caption : string) : http_request :=
  PostForm (InstagramPoster.media_url self)
    [ ("image_url",
       JStr ("https://example.com/temp_images/" ++ os_path_basename path));
      ("caption", JStr caption);
      ("access_token", JStr (InstagramPoster.access_token self)) ].

Definition publish_request (self : InstagramPoster.t) (cid : json)
  : http_request :=
  PostForm (InstagramPoster.media_publish_url self)
    [ ("creation_id", cid);
      ("access_token", JStr (InstagramPoster.access_token self)) ].

(** The request that [_get_image_description] sends for an image. *)
Definition vision_request {T : PyText} (self : DescriptionGenerator.t)
    (img : list byte) : claude_request :=
  {| cr_model := DescriptionGenerator.model self;
     cr_max_tokens := 300;
     cr_temperature := None;
     cr_content := ContentParts
       [ PartText "Describe this image in detail for use in an Instagram caption.";
         PartImage "image/png" (b64encode img) ] |}.

Definition claude_requests_sent (es : list event) : list claude_request :=
  flat_map (fun e => match e with EClaude req _ => [req] | _ => [] end) es.

(** The two records that [post] writes before its [try]. *)
Definition post_prelude (path full : string) : list event :=
  [ ELog InstagramPoster.logger INFO ("Preparing to post image: " ++ path);
    ELog InstagramPoster.logger INFO
      ("Caption length: " ++ str_Z (Z.of_nat (py_len full)) ++ " characters") ].

(** The record that [generate_description] writes before its [try]. *)
Definition entry_log (prompt : string) : event :=
  ELog DescriptionGenerator.logger INFO
    ("Generating description for prompt: " ++ prompt).

(** The events of a [for] loop whose turns all end well: those of each
    turn, run after the ones before. *)
Fixpoint for_each_events {A} (xs : list A) (body : A -> M unit) (h : history)
  : list event :=
  match xs with
  | [] => []
  | x :: rest =>
      let es := snd (body x h) in
      (es ++ for_each_events rest body (h ++ es))%list
  end.

(** The error records that the failed attempts call for, the attempts
    numbered from [k]. *)
Fixpoint failure_records (k : Z) (rs : list (option exn)) : list string :=
  match rs with
  | [] => []
  | Some e :: rest =>
      ("Error in post " ++ str_Z k ++ ": " ++ exn_msg e)
      :: failure_records (k + 1) rest
  | None :: rest => failure_records (k + 1) rest
  end.

(** The sleeps of the loop for given outcomes of the attempts, numbered
    from [i] as [range] does: one after each attempt that ended well and
    is not the last of the [n]. *)
Fixpoint sleeps_after (n secs i : Z) (rs : list (option exn)) : list Z :=
  match rs with
  | [] => []
  | None :: rest =>
      if (i <? n - 1)%Z then secs :: sleeps_after n secs (i + 1) rest
      else sleeps_after n secs (i + 1) rest
  | Some _ :: rest => sleeps_after n secs (i + 1) rest
  end.

(** The record that opens [scheduled_workflow]. *)
Definition start_log (config : Main.Config) : event :=
  ELog Main.logger INFO
    ("Starting scheduled workflow. Posts: " ++ str_Z (Main.total_posts_of config)
     ++ ", Frequency: " ++ str_Z (Main.post_frequency_hours config) ++ "h").

Definition is_log (e : event) : bool :=
  match e with
  | ELog _ _ _ => true
  | _ => false
  end.

(** ** main.py: loading the configuration

    [load_config] works on the parsed document itself.  The process
    environment and the JSON parser are parameters; the file is read
    through the world. *)

Module MainSetup.
(** [d[k] = v] on the items of a dict: an existing key keeps its place. *)
Fixpoint assoc_set (k : string) (v : json) (items : list (string * json))
  : list (string * json) :=
  match items with
  | [] => [(k, v)]
  | (k', v') :: rest =>
      if k' =? k then (k, v) :: rest else (k', v') :: assoc_set k v rest
  end.

Section Loading.
Context {T : PyText} (w : World).
Variable getenv : string -> option string.          (* os.getenv *)
Variable json_load : list byte -> result json.      (* json.load on the file *)

(** [d[k]] for a string key *)
Definition subscript (d : json) (k : string) : result json :=
  match d with
  | JObj items =>
      match assoc_get k items with
      | Some v => Ok v
      | None => Err (mk_exn KeyError (str_repr k))
      end
  | JArr _ => Err (mk_exn TypeError
                     "list indices must be integers or slices, not str")
  | JStr _ => Err (mk_exn TypeError "string indices must be integers, not 'str'")
  | _ => Err (mk_exn TypeError
                ("'" ++ type_name d ++ "' object is not subscriptable"))
  end.

(** [d[k] = v] for a string key *)
Definition store (d : json) (k : string) (v : json) : result json :=
  match d with
  | JObj items => Ok (JObj (assoc_set k v items))
  | JArr _ => Err (mk_exn TypeError
                     "list indices must be integers or slices, not str")
  | _ => Err (mk_exn TypeError
                ("'" ++ type_name d ++ "' object does not support item assignment"))
  end.

(** [d[p1]...[pn][k] = v]: the dicts on the way are read, the last one
    is updated in place. *)
Fixpoint store_at (d : json) (path : list string) (k : string) (v : json)
  : result json :=
  match path with
  | [] => store d k v
  | p :: rest =>
      match subscript d p with
      | Err e => Err e
      | Ok inner =>
          match store_at inner rest k v with
          | Err e => Err e
          | Ok inner' => store d p inner'
          end
      end
  end.

(** [if os.getenv(name): config[path][k] = os.getenv(name)] *)
Definition override (name : string) (path : list string) (k : string)
    (config : json) : result json :=
  match getenv name with
  | Some v => if negb (v =? "") then store_at config path k (JStr v)
              else Ok config
  | None => Ok config
  end.

Definition logger : string := "__main__".

Definition load_config (config_path : string) : M json :=
  try_except
    (text <- Py.read_binary w config_path ;;
     config <- lift (json_load text) ;;
     config <- lift (override "HUGGINGFACE_API_KEY" ["api_keys"] "huggingface"
                       config) ;;
     config <- lift (override "ANTHROPIC_API_KEY" ["api_keys"] "anthropic"
                       config) ;;
     config <- lift (override "INSTAGRAM_ACCESS_TOKEN" ["api_keys"; "instagram"]
                       "access_token" config) ;;
     config <- lift (override "INSTAGRAM_USER_ID" ["api_keys"; "instagram"]
                       "user_id" config) ;;
     log logger INFO ("Configuration loaded from " ++ config_path) ;;;
     ret config)
    (fun e =>
       log logger ERROR ("Failed to load config: " ++ exn_msg e) ;;;
       raise e).
End Loading.

(** [d[p1]...[pn]], when every step finds a dict with the key. *)
Fixpoint lookup_at (d : json) (path : list string) : option json :=
  match path with
  | [] => Some d
  | p :: rest =>
      match d with
      | JObj items =>
          match assoc_get p items with
          | Some inner => lookup_at inner rest
          | None => None
          end
      | _ => None
      end
  end.
End MainSetup.

(** ** More observations on a trace *)

(** The files that a trace wrote, with what was written. *)
Fixpoint files_written (es : list event) : list (string * list byte) :=
  match es with
  | [] => []
  | EWrite p data (Ok _) :: rest => (p, data) :: files_written rest
  | _ :: rest => files_written rest
  end.

(** Every record of a trace at level ERROR. *)
Fixpoint error_records (es : list event) : list string :=
  match es with
  | [] => []
  | ELog _ ERROR msg :: rest => msg :: error_records rest
  | _ :: rest => error_records rest
  end.

(** The model requests that carry an image. *)
Definition is_vision_request (req : claude_request) : bool :=
  match cr_content req with
  | ContentParts _ => true
  | ContentText _ => false
  end.

(** What [post] returns for the reply to its publish request. *)
Definition publish_result (pres : result http_response) : result json :=
  match pres with
  | Err e => Err e
  | Ok resp =>
      if (status_code resp =? 200)%Z then
        match json_body resp with
        | None => Err (mk_exn JSONDecodeError
                         "Expecting value: line 1 column 1 (char 0)")
        | Some (JObj items) => Ok (JObj items)
        | Some j => Err (mk_exn AttributeError
                           ("'" ++ type_name j ++ "' object has no attribute 'get'"))
        end
      else Err (mk_exn Exception_ ("Failed to publish media: " ++ text resp))
  end.

(** What [post] raises for a reply to its creation request that gives
    no identifier. *)
Definition creation_error (cres : result http_response) : exn :=
  match cres with
  | Err e => e
  | Ok resp =>
      if (status_code resp =? 200)%Z then
        match json_body resp with
        | None => mk_exn JSONDecodeError
                    "Expecting value: line 1 column 1 (char 0)"
        | Some (JObj _) => mk_exn Exception_ "Container ID not found in response"
        | Some j => mk_exn AttributeError
                      ("'" ++ type_name j ++ "' object has no attribute 'get'")
        end
      else mk_exn Exception_ ("Failed to create media container: " ++ text resp)
  end.

(** The request of [get_account_info]. *)
Definition account_request (self : InstagramPoster.t) : http_request :=
  GetParams (InstagramPoster.base_url self ++ "/" ++ InstagramPoster.user_id self)
    [ ("fields", "username,name,profile_picture_url,media_count,followers_count,follows_count");
      ("access_token", InstagramPoster.access_token self) ].

(** What [get_account_info] returns for the reply to its request. *)
Definition account_result (res : result http_response) : result json :=
  match res with
  | Err e => Err e
  | Ok resp =>
      if (status_code resp =? 200)%Z then
        match json_body resp with
        | None => Err (mk_exn JSONDecodeError
                         "Expecting value: line 1 column 1 (char 0)")
        | Some (JObj items) => Ok (JObj items)
        | Some j => Err (mk_exn AttributeError
                           ("'" ++ type_name j ++ "' object has no attribute 'get'"))
        end
      else Err (mk_exn Exception_ ("Failed to get account info: " ++ text resp))
  end.

(** A generator whose URL and headers follow from its model and key. *)
Definition image_generator_consistent (g : ImageGenerator.t) : Prop :=
  ImageGenerator.api_url g
  = "https://api-inference.huggingface.co/models/" ++ ImageGenerator.model_name g
  /\ ImageGenerator.headers g
     = [("Authorization", "Bearer " ++ ImageGenerator.api_key g)].

(** No '/' in a file name. *)
Fixpoint no_slash (s : string) : bool :=
  match s with
  | EmptyString => true
  | String a s' => negb (Ascii.eqb a "/"%char) && no_slash s'
  end.

(** ** More scripted worlds *)

Module Script.
(** [w] with another HTTP backend. *)
Definition with_http (w : World)
    (f : history -> http_request -> result http_response) : World :=
  {| fs_exists := fs_exists w; fs_read := fs_read w; fs_write := fs_write w;
     http := f; claude := claude w; randbelow := randbelow w;
     clock_now := clock_now w; uuid4 := uuid4 w;
     fromtimestamp_error := fromtimestamp_error w;
     strftime_local := strftime_local w |}.

(** [w] with another language-model backend. *)
Definition with_claude (w : World)
    (f : history -> claude_request -> result claude_message) : World :=
  {| fs_exists := fs_exists w; fs_read := fs_read w; fs_write := fs_write w;
     http := http w; claude := f; randbelow := randbelow w;
     clock_now := clock_now w; uuid4 := uuid4 w;
     fromtimestamp_error := fromtimestamp_error w;
     strftime_local := strftime_local w |}.

(** [w] with a disk that refuses every write. *)
Definition read_only (w : World) : World :=
  {| fs_exists := fs_exists w; fs_read := fs_read w;
     fs_write := fun _ p _ => Err (mk_exn OSError ("Read-only file system: " ++ p));
     http := http w; claude := claude w; randbelow := randbelow w;
     clock_now := clock_now w; uuid4 := uuid4 w;
     fromtimestamp_error := fromtimestamp_error w;
     strftime_local := strftime_local w |}.

Definition calm : World := Demo.world (fun _ => false).

(** [w] with a disk on which no path exists. *)
Definition no_files (w : World) : World :=
  {| fs_exists := fun _ _ => false;
     fs_read := fun _ p =>
       Err (mk_exn FileNotFoundError ("No such file or directory: " ++ p));
     fs_write := fs_write w;
     http := http w; claude := claude w; randbelow := randbelow w;
     clock_now := clock_now w; uuid4 := uuid4 w;
     fromtimestamp_error := fromtimestamp_error w;
     strftime_local := strftime_local w |}.

Definition reply (code : Z) (why body : string) (j : option json)
    (u : string) : http_response :=
  {| status_code := code; reason := why; resp_url := u;
     text := body; content := []; json_body := j |}.

(** Every request is answered with the given status. *)
Definition world_status (code : Z) (why body : string) : World :=
  with_http calm (fun _ req => Ok (reply code why body None (request_url req))).

(** Every request times out. *)
Definition world_timeout : World :=
  with_http calm (fun _ _ => Err (mk_exn Timeout "Read timed out.")).

(** The creation succeeds and the publish request is answered by
    [publish]. *)
Definition world_publish (publish : http_request -> result http_response)
  : World :=
  with_http calm
    (fun h req =>
       match req with
       | PostForm _ data =>
           match assoc_get "creation_id" data with
           | Some _ => publish req
           | None => Demo.backend (fun _ => false) h req
           end
       | _ => Demo.backend (fun _ => false) h req
       end).

(** The language model answers every request with the text [txt]. *)
Definition world_says (txt : string) : World :=
  with_claude calm (fun _ _ => Ok {| msg_content := [TextBlock txt] |}).

Definition run_image (w : World) (prompt : string)
  : result string * list event :=
  ImageGenerator.generate_image (T := AsciiText.text) w Demo.image_gen prompt
    "output" 1024 1024 [].

(** [w] with a file at [p] that holds [data]. *)
Definition with_file (w : World) (p : string) (data : list byte) : World :=
  {| fs_exists := fun h q => (q =? p) || fs_exists w h q;
     fs_read := fun h q => if q =? p then Ok data else fs_read w h q;
     fs_write := fs_write w;
     http := http w; claude := claude w; randbelow := randbelow w;
     clock_now := clock_now w; uuid4 := uuid4 w;
     fromtimestamp_error := fromtimestamp_error w;
     strftime_local := strftime_local w |}.

(** A parsed configuration file, with the access token [token]. *)
Definition config_doc (token : string) : json :=
  JObj [ ("api_keys",
          JObj [ ("huggingface", JStr "hf-file");
                 ("anthropic", JStr "sk-file");
                 ("instagram",
                  JObj [ ("access_token", JStr token);
                         ("user_id", JStr "1789") ]) ]);
         ("output_directory", JStr "output") ].

(** The environment that holds [vars]. *)
Fixpoint env (vars : list (string * string)) (name : string) : option string :=
  match vars with
  | [] => None
  | (k, v) :: rest => if k =? name then Some v else env rest name
  end.

(** [load_config] on a file that parses to [doc], in the environment
    [vars]. *)
Definition run_load (vars : list (string * string)) (doc : json)
  : result json * list event :=
  MainSetup.load_config (T := AsciiText.text)
    (with_file calm "config/config.json" []) (env vars) (fun _ => Ok doc)
    "config/config.json" [].
End Script.

(** * Checks of the primitives on concrete inputs *)

Example ascii_lower_ex : AsciiText.lower "Digital ART" = "digital art".
Proof. reflexivity. Qed.

Example ascii_strip_ex :
  AsciiText.strip ("  a b " ++ nl) = "a b".
Proof. reflexivity. Qed.

Example ascii_format_ex :
  AsciiText.format "{opener} about {image_prompt}{{}}"
    [("image_prompt", "a cat"); ("opener", "Hi")] = Ok "Hi about a cat{}".
Proof. reflexivity. Qed.

Example ascii_format_missing :
  is_ok (AsciiText.format "{nope}" [("image_prompt", "a cat")]) = false.
Proof. reflexivity. Qed.

Example base64_ex :
  AsciiText.base64 [x4d; x61; x6e; x4d; x61] = "TWFuTWE=".
Proof. reflexivity. Qed.

Example str_Z_ex : str_Z 0 = "0" /\ str_Z 42 = "42" /\ str_Z (-7) = "-7".
Proof. repeat split; reflexivity. Qed.

Example strip_hash_ex :
  str_strip_char "#" "##a#b#" = "a#b" /\ str_strip_char "#" "###" = "".
Proof. split; reflexivity. Qed.

Example str_in_ex :
  str_in "art" "digital art" = true /\ str_in "" "x" = true
  /\ str_in "arts" "digital art" = false.
Proof. repeat split; reflexivity. Qed.

Example py_len_ex : py_len "✨ ok" = 4%nat /\ py_prefix 2 "✨ ok" = "✨ ".
Proof. split; reflexivity. Qed.

Example path_ex :
  os_path_basename "output/a/img.png" = "img.png"
  /\ os_path_join "output" "img.png" = "output/img.png"
  /\ os_path_join "output/" "img.png" = "output/img.png".
Proof. repeat split; reflexivity. Qed.

(** * Text lemmas *)


Lemma append_assoc (a b c : string) : (a ++ b) ++ c = a ++ (b ++ c).
Proof. induction a as [|x a IH]; simpl; [reflexivity | now rewrite IH]. Qed.

Lemma append_length (a b : string) :
  String.length (a ++ b) = (String.length a + String.length b)%nat.
Proof. induction a as [|x a IH]; simpl; [reflexivity | now rewrite IH]. Qed.

Lemma append_inv_head (s a b : string) : s ++ a = s ++ b -> a = b.
Proof.
  induction s as [|x s IH]; simpl; intros H; [exact H |].
  injection H as H. now apply IH.
Qed.

Lemma append_neq_self (s t : string) : t <> "" -> s ++ t <> s.
Proof.
  intros Ht H. apply (f_equal String.length) in H.
  rewrite append_length in H. destruct t; [now apply Ht |]. simpl in H. lia.
Qed.

Lemma prefix_iff (a s : string) :
  String.prefix a s = true <-> exists b, s = a ++ b.
Proof.
  revert s. induction a as [|x a IH]; intros s.
  - destruct s; simpl; split; intros _; eauto.
  - destruct s as [|y s]; simpl.
    + split; [discriminate | intros [b Hb]; discriminate].
    + destruct (ascii_dec x y) as [->|Hxy].
      * rewrite IH. split; intros [b Hb]; exists b; [now rewrite Hb |].
        now injection Hb.
      * split; [discriminate |]. intros [b Hb]. injection Hb as Hy _.
        now elim Hxy.
Qed.

(** [str_in] decides the substring relation. *)
Lemma str_in_iff (sub s : string) :
  str_in sub s = true <-> is_substring sub s.
Proof.
  unfold is_substring. induction s as [|y s IH].
  - cbn [str_in]. rewrite orb_false_r, prefix_iff. split.
    + intros [b Hb]. exists "", b. exact Hb.
    + intros [a [b Hab]]. destruct a; [now exists b | discriminate].
  - cbn [str_in]. rewrite orb_true_iff, prefix_iff, IH. split.
    + intros [[b Hb] | [a [b Hab]]].
      * exists "", b. exact Hb.
      * exists (String y a), b. simpl. now rewrite Hab.
    + intros [a [b Hab]]. destruct a as [|x a].
      * left. now exists b.
      * right. injection Hab as _ Hab. now exists a, b.
Qed.

Lemma str_in_false_iff (sub s : string) :
  str_in sub s = false <-> ~ is_substring sub s.
Proof.
  rewrite <- str_in_iff. destruct (str_in sub s); split; intros H;
    try discriminate; try reflexivity; now elim H.
Qed.

(** ** Stripping one character *)

Lemma lstrip_first (c : ascii) (s : string) :
  str_first (str_lstrip_char c s) <> Some c.
Proof.
  induction s as [|a s IH]; simpl; [discriminate |].
  destruct (Ascii.eqb a c) eqn:E; [exact IH |].
  simpl. intros H. injection H as ->. now rewrite Ascii.eqb_refl in E.
Qed.

Lemma rstrip_first (c : ascii) (s : string) :
  str_first s <> Some c -> str_first (str_rstrip_char c s) <> Some c.
Proof.
  destruct s as [|a s]; simpl; [discriminate |]. intros H.
  destruct (str_rstrip_char c s).
  - destruct (Ascii.eqb a c); [discriminate | exact H].
  - exact H.
Qed.

Lemma rstrip_last (c : ascii) (s : string) :
  str_last (str_rstrip_char c s) <> Some c.
Proof.
  induction s as [|a s IH]; simpl; [discriminate |].
  destruct (str_rstrip_char c s) as [|b r] eqn:E.
  - destruct (Ascii.eqb a c) eqn:Ea; simpl; [discriminate |].
    intros H. injection H as ->. now rewrite Ascii.eqb_refl in Ea.
  - exact IH.
Qed.

Lemma rstrip_id (c : ascii) (s : string) :
  str_last s <> Some c -> str_rstrip_char c s = s.
Proof.
  induction s as [|a s IH]; simpl; [reflexivity |]. intros H.
  destruct s as [|b s].
  - simpl. destruct (Ascii.eqb a c) eqn:E; [| reflexivity].
    apply Ascii.eqb_eq in E. subst. now elim H.
  - rewrite IH by exact H. reflexivity.
Qed.

Lemma lstrip_id (c : ascii) (s : string) :
  str_first s <> Some c -> str_lstrip_char c s = s.
Proof.
  destruct s as [|a s]; simpl; [reflexivity |]. intros H.
  destruct (Ascii.eqb a c) eqn:E; [| reflexivity].
  apply Ascii.eqb_eq in E. subst. now elim H.
Qed.

Lemma strip_first (c : ascii) (s : string) :
  str_first (str_strip_char c s) <> Some c.
Proof. apply rstrip_first, lstrip_first. Qed.

Lemma strip_last (c : ascii) (s : string) :
  str_last (str_strip_char c s) <> Some c.
Proof. apply rstrip_last. Qed.

Lemma strip_leading (c : ascii) (s : string) :
  str_strip_char c (String c s) = str_strip_char c s.
Proof. unfold str_strip_char. simpl. now rewrite Ascii.eqb_refl. Qed.

Lemma strip_idempotent (c : ascii) (s : string) :
  str_strip_char c (str_strip_char c s) = str_strip_char c s.
Proof.
  unfold str_strip_char at 1.
  rewrite (lstrip_id c (str_strip_char c s)) by apply strip_first.
  apply rstrip_id, strip_last.
Qed.

Lemma strip_no_trailing (c : ascii) (s : string) :
  str_last s <> Some c -> str_strip_char c s = str_lstrip_char c s.
Proof.
  intros H. unfold str_strip_char. apply rstrip_id.
  induction s as [|a s IH]; simpl; [discriminate |].
  destruct (Ascii.eqb a c) eqn:E; [| exact H].
  apply IH. destruct s as [|b s]; [discriminate | exact H].
Qed.

(** * Traces *)

Lemma requests_to_app (u : string) (a b : list event) :
  requests_to u (a ++ b) = (requests_to u a ++ requests_to u b)%list.
Proof.
  induction a as [|e a IH]; simpl; [reflexivity |].
  destruct e; try exact IH.
  destruct (request_url req =? u); simpl; now rewrite IH.
Qed.

Lemma requests_sent_app (a b : list event) :
  requests_sent (a ++ b) = (requests_sent a ++ requests_sent b)%list.
Proof.
  induction a as [|e a IH]; simpl; [reflexivity |].
  destruct e; try exact IH. simpl. now rewrite IH.
Qed.

Lemma sleeps_app (a b : list event) :
  sleeps (a ++ b) = (sleeps a ++ sleeps b)%list.
Proof.
  induction a as [|e a IH]; simpl; [reflexivity |].
  destruct e; try exact IH. simpl. now rewrite IH.
Qed.

Lemma attempts_app (a b : list event) :
  attempts (a ++ b) = (attempts a ++ attempts b)%list.
Proof.
  induction a as [|e a IH]; simpl; [reflexivity |].
  destruct e; try exact IH.
  destruct (fn =? "single_post_workflow"); simpl; now rewrite IH.
Qed.

Lemma errors_logged_app (l : string) (a b : list event) :
  errors_logged l (a ++ b) = (errors_logged l a ++ errors_logged l b)%list.
Proof.
  induction a as [|e a IH]; simpl; [reflexivity |].
  destruct e; try exact IH.
  destruct lvl; try exact IH.
  destruct (logger =? l); simpl; now rewrite IH.
Qed.

Lemma logs_no_requests (u : string) (es : list event) :
  Forall (fun e => is_log e = true) es -> requests_to u es = [].
Proof.
  induction 1 as [|e es He _ IH]; [reflexivity |].
  destruct e; try discriminate He. exact IH.
Qed.

Lemma logs_no_requests_sent (es : list event) :
  Forall (fun e => is_log e = true) es -> requests_sent es = [].
Proof.
  induction 1 as [|e es He _ IH]; [reflexivity |].
  destruct e; try discriminate He. exact IH.
Qed.

Lemma logs_no_sleeps (es : list event) :
  Forall (fun e => is_log e = true) es -> sleeps es = [].
Proof.
  induction 1 as [|e es He _ IH]; [reflexivity |].
  destruct e; try discriminate He. exact IH.
Qed.

Lemma created_ids_app (u : string) (a b : list event) :
  created_ids u (a ++ b) = (created_ids u a ++ created_ids u b)%list.
Proof.
  induction a as [|e a IH]; simpl; [reflexivity |].
  destruct e; try exact IH.
  destruct (request_url req =? u); [| exact IH].
  destruct (reply_id resp); simpl; now rewrite IH.
Qed.

Lemma published_ids_app (u : string) (a b : list event) :
  published_ids u (a ++ b) = (published_ids u a ++ published_ids u b)%list.
Proof.
  induction a as [|e a IH]; simpl; [reflexivity |].
  destruct e; try exact IH.
  destruct req; try exact IH.
  destruct (url =? u); [| exact IH].
  destruct (assoc_get "creation_id" data); simpl; now rewrite IH.
Qed.

Lemma logs_no_created (u : string) (es : list event) :
  Forall (fun e => is_log e = true) es -> created_ids u es = [].
Proof.
  induction 1 as [|e es He _ IH]; [reflexivity |].
  destruct e; try discriminate He. exact IH.
Qed.

Lemma logs_no_published (u : string) (es : list event) :
  Forall (fun e => is_log e = true) es -> published_ids u es = [].
Proof.
  induction 1 as [|e es He _ IH]; [reflexivity |].
  destruct e; try discriminate He. exact IH.
Qed.

Lemma urls_differ (self : InstagramPoster.t) :
  (InstagramPoster.media_publish_url self =? InstagramPoster.media_url self) = false
  /\ (InstagramPoster.media_url self =? InstagramPoster.media_publish_url self) = false.
Proof.
  assert (H : InstagramPoster.media_publish_url self
              <> InstagramPoster.media_url self).
  { unfold InstagramPoster.media_publish_url, InstagramPoster.media_url.
    intros H. apply append_inv_head in H. apply append_inv_head in H.
    apply append_inv_head in H. discriminate H. }
  split; apply String.eqb_neq; [exact H | intros E; apply H; now symmetry].
Qed.

(** * The caption merge: C4, C8, C10 *)

Lemma full_caption_nonempty (self : DescriptionGenerator.t)
    (caption : string) (tags : list string) :
  tags <> [] ->
  InstagramPoster.full_caption caption (Some tags)
  = DescriptionGenerator.add_hashtags self caption tags.
Proof. destruct tags as [|t tags]; [intros H; now elim H | reflexivity]. Qed.

Lemma full_caption_empty (caption : string) :
  InstagramPoster.full_caption caption (Some []) = caption
  /\ InstagramPoster.full_caption caption None = caption.
Proof. split; reflexivity. Qed.

Lemma add_hashtags_empty (self : DescriptionGenerator.t) (caption : string) :
  DescriptionGenerator.add_hashtags self caption [] = caption ++ nl ++ nl.
Proof. reflexivity. Qed.

(** C4, as amended.  [add_hashtags] appends, after a blank line, the tags
    joined by single spaces, each tag normalized to one '#' followed by
    the tag stripped of its '#' characters at BOTH ends: the normalized
    core neither starts nor ends with '#', a leading '#' on the input is
    neither required nor duplicated, and normalizing twice changes
    nothing.  For tags that do not end in '#' this is the leading-only
    rule of the specification; [add_hashtags caption ["#a"; "b"]] is the
    caption, a blank line and "#a #b". *)
Theorem add_hashtags_strips_both_ends :
  forall (self : DescriptionGenerator.t) (caption : string) (tags : list string),
    DescriptionGenerator.add_hashtags self caption tags
    = caption ++ nl ++ nl
      ++ str_join " " (map (fun tag => "#" ++ str_strip_char "#" tag) tags)
    /\ (forall tag,
          str_first (str_strip_char "#" tag) <> Some "#"%char
          /\ str_last (str_strip_char "#" tag) <> Some "#"%char)
    /\ (forall tag,
          str_strip_char "#" ("#" ++ tag) = str_strip_char "#" tag
          /\ str_strip_char "#" (str_strip_char "#" tag) = str_strip_char "#" tag)
    /\ (Forall (fun tag => str_last tag <> Some "#"%char) tags ->
        DescriptionGenerator.add_hashtags self caption tags
        = add_hashtags_spec caption tags)
    /\ DescriptionGenerator.add_hashtags self caption ["#a"; "b"]
       = caption ++ nl ++ nl ++ "#a #b".
Proof.
  intros self caption tags. split; [reflexivity |].
  split; [intros tag; split; [apply strip_first | apply strip_last] |].
  split; [intros tag; split; [apply strip_leading | apply strip_idempotent] |].
  split; [| reflexivity].
  intros Htags. unfold DescriptionGenerator.add_hashtags, add_hashtags_spec.
  do 3 f_equal. f_equal. apply map_ext_in. intros tag Hin.
  rewrite Forall_forall in Htags. now rewrite strip_no_trailing by auto.
Qed.

Lemma add_hashtags_strips_both_ends_witness :
  DescriptionGenerator.add_hashtags Demo.desc_gen "Sunrise" ["#a"; "b"]
  = add_hashtags_spec "Sunrise" ["#a"; "b"].
Proof.
  destruct (add_hashtags_strips_both_ends Demo.desc_gen "Sunrise" ["#a"; "b"])
    as (_ & _ & _ & Hspec & _).
  apply Hspec. repeat constructor; discriminate.
Defined.

(** C4 as stated fails on a tag that ends in '#': the code strips the
    trailing '#' too. *)
Lemma add_hashtags_leading_only_counterexample :
  DescriptionGenerator.add_hashtags Demo.desc_gen "x" ["c#"] = "x" ++ nl ++ nl ++ "#c"
  /\ add_hashtags_spec "x" ["c#"] = "x" ++ nl ++ nl ++ "#c#"
  /\ DescriptionGenerator.add_hashtags Demo.desc_gen "x" ["c#"]
     <> add_hashtags_spec "x" ["c#"].
Proof. repeat split. discriminate. Qed.

(** * The publishing client: C5, C9 *)

Section PosterFacts.
Context {T : PyText} (w : World).

Lemma create_run (self : InstagramPoster.t) (path caption : string)
      (h : history) :
    let creq := creation_request self path caption in
    let cres := http w (h ++ [upload_log path])%list creq in
    exists logs,
      Forall (fun e => is_log e = true) logs
      /\ snd (InstagramPoster._create_media_container w self path caption h)
         = upload_log path :: EHttp creq cres :: logs
      /\ match reply_id cres with
         | Some cid =>
             fst (InstagramPoster._create_media_container w self path caption h)
             = Ok cid
         | None =>
             exists e,
             fst (InstagramPoster._create_media_container w self path caption h)
             = Err e
         end.
  Proof.
    intros creq cres.
    unfold InstagramPoster._create_media_container,
      InstagramPoster._upload_image_to_temporary_storage,
      Py.requests_post, Py.response_json, Py.dict_get, bind, log, emit, ret, raise.
    cbn.
    match goal with
    | |- context [http w ?hh ?rq] => change (http w hh rq) with cres
    end.
    clearbody cres. unfold reply_id.
    destruct cres as [resp | e]; cbn.
    2: { eexists; split; [| split; [reflexivity |]];
         [constructor | eexists; reflexivity]. }
    destruct (status_code resp =? 200)%Z; cbn.
    2: { eexists; split; [| split; [reflexivity |]];
         [repeat constructor | eexists; reflexivity]. }
    destruct (json_body resp) as [j |]; cbn.
    2: { eexists; split; [| split; [reflexivity |]];
         [repeat constructor | eexists; reflexivity]. }
    destruct j; cbn;
      try (eexists; split; [| split; [reflexivity |]];
           [repeat constructor | eexists; reflexivity]).
    destruct (assoc_get "id" items) as [v |]; cbn.
    2: { eexists; split; [| split; [reflexivity |]];
         [repeat constructor | eexists; reflexivity]. }
    destruct (truthy v); cbn;
      (eexists; split; [| split; [reflexivity |]];
       [repeat constructor | try reflexivity; eexists; reflexivity]).
  Qed.

Lemma publish_run (self : InstagramPoster.t) (cid : json) (h : history) :
    exists pres logs,
      Forall (fun e => is_log e = true) logs
      /\ snd (InstagramPoster._publish_container w self cid h)
         = ESleep 5 :: EHttp (publish_request self cid) pres :: logs.
  Proof.
    unfold InstagramPoster._publish_container, Py.time_sleep,
      Py.requests_post, Py.response_json, bind, log, emit, ret, raise.
    cbn.
    match goal with
    | |- context [http w ?hh ?rq] => generalize (http w hh rq)
    end.
    intros pres. exists pres.
    destruct pres as [resp | e]; cbn.
    2: { eexists; split; [| reflexivity]; constructor. }
    destruct (status_code resp =? 200)%Z; cbn.
    2: { eexists; split; [| reflexivity]; repeat constructor. }
    destruct (json_body resp) as [j |]; cbn;
      (eexists; split; [| reflexivity]; repeat constructor).
  Qed.

  (** The trace of a run of [post] on a file that exists. *)
Lemma post_run (self : InstagramPoster.t) (path caption : string)
      (hashtags : option (list string)) (h : history) :
    fs_exists w h path = true ->
    let full := InstagramPoster.full_caption caption hashtags in
    let creq := creation_request self path full in
    exists cres tail,
      snd (InstagramPoster.post w self path caption hashtags h)
      = (post_prelude path full ++ upload_log path :: EHttp creq cres :: tail)%list
      /\ match reply_id cres with
         | Some cid =>
             exists logs1 pres logs2,
               tail = (logs1 ++ ESleep 5
                       :: EHttp (publish_request self cid) pres :: logs2)%list
               /\ Forall (fun e => is_log e = true) logs1
               /\ Forall (fun e => is_log e = true) logs2
         | None =>
             Forall (fun e => is_log e = true) tail
             /\ exists e,
                fst (InstagramPoster.post w self path caption hashtags h) = Err e
         end.
  Proof.
    intros Hex full creq.
    destruct (InstagramPoster.post w self path caption hashtags h)
      as [rr ees] eqn:Hpost.
    cbn [fst snd]. revert Hpost.
    unfold InstagramPoster.post, Py.os_path_exists.
    unfold bind at 1. rewrite Hex. cbn [negb].
    fold full.
    unfold bind at 1. unfold log at 1, emit at 1.
    unfold bind at 1. unfold log at 1, emit at 1.
    unfold try_except. unfold bind at 1.
    match goal with
    | |- context [InstagramPoster._create_media_container w self path full ?hh] =>
        destruct (create_run self path full hh) as (logs1 & Hlogs1 & Hes & Hr);
        destruct (InstagramPoster._create_media_container w self path full hh)
          as [r es] eqn:Hrun
    end.
    cbn [fst snd] in Hes, Hr. subst es.
    match type of Hr with
    | context [reply_id ?c] => set (cres := c) in *
    end.
    exists cres. clearbody cres.
    destruct (reply_id cres) as [cid |].
    - subst r. try revert Hpost.
      unfold bind at 1.
      match goal with
      | |- context [InstagramPoster._publish_container w self cid ?hh] =>
          destruct (publish_run self cid hh) as (pres & logs2 & Hlogs2 & Hes2);
          destruct (InstagramPoster._publish_container w self cid hh)
            as [r2 es2] eqn:Hrun2
      end.
      cbn [snd] in Hes2. subst es2. try revert Hpost.
      destruct r2 as [resp | e]; cbn.
      + unfold Py.dict_get, bind, log, emit, ret, raise.
        destruct resp; cbn; intros Hp; injection Hp as <- <-;
          rewrite <- ?app_assoc; cbn [app]; rewrite ?app_nil_r;
          (eexists; split; [reflexivity |]);
          exists logs1, pres; eexists; (split; [reflexivity |]);
          (split; [exact Hlogs1 |]);
          repeat (apply Forall_app; split); try assumption; repeat constructor.
      + intros Hp; injection Hp as <- <-.
        rewrite <- ?app_assoc; cbn [app]; rewrite ?app_nil_r.
        eexists; split; [reflexivity |].
        exists logs1, pres; eexists; (split; [reflexivity |]).
        split; [exact Hlogs1 |].
        repeat (apply Forall_app; split); try assumption; repeat constructor.
    - destruct Hr as [e He]. subst r. try revert Hpost. cbn.
      intros Hp; injection Hp as <- <-.
      eexists; split; [reflexivity |]. split.
      + apply Forall_app; split; [exact Hlogs1 | repeat constructor].
      + eexists; reflexivity.
  Qed.

Lemma post_observed (self : InstagramPoster.t) (path caption : string)
      (hashtags : option (list string)) (h : history) :
    fs_exists w h path = true ->
    let creq := creation_request self path
                  (InstagramPoster.full_caption caption hashtags) in
    let run := InstagramPoster.post w self path caption hashtags h in
    exists cres,
      In (EHttp creq cres) (snd run)
      /\ requests_to (InstagramPoster.media_url self) (snd run) = [creq]
      /\ requests_to (InstagramPoster.media_publish_url self) (snd run)
         = match reply_id cres with
           | Some cid => [publish_request self cid]
           | None => []
           end
      /\ requests_sent (snd run)
         = creq :: match reply_id cres with
                   | Some cid => [publish_request self cid]
                   | None => []
                   end
      /\ created_ids (InstagramPoster.media_url self) (snd run)
         = match reply_id cres with Some cid => [cid] | None => [] end
      /\ published_ids (InstagramPoster.media_publish_url self) (snd run)
         = match reply_id cres with Some cid => [cid] | None => [] end
      /\ (reply_id cres = None -> exists e, fst run = Err e).
  Proof.
    intros Hex creq run.
    destruct (post_run self path caption hashtags h Hex)
      as (cres & tail & Hes & Hcase).
    fold creq in Hes. fold run in Hes, Hcase.
    destruct (urls_differ self) as [Hpm Hmp].
    exists cres. rewrite Hes. clear Hes.
    rewrite requests_to_app, requests_to_app, requests_sent_app,
      created_ids_app, published_ids_app.
    unfold post_prelude, upload_log, creq, creation_request.
    cbn [requests_to requests_sent created_ids published_ids request_url app].
    rewrite String.eqb_refl, Hmp.
    split; [right; right; right; left; reflexivity |].
    destruct (reply_id cres) as [cid |].
    - destruct Hcase as (logs1 & pres & logs2 & -> & Hl1 & Hl2).
      rewrite requests_to_app, requests_to_app, requests_sent_app,
        created_ids_app, published_ids_app.
      rewrite !(logs_no_requests _ logs1), (logs_no_requests_sent logs1),
        (logs_no_created _ logs1), (logs_no_published _ logs1) by assumption.
      unfold publish_request.
      cbn [requests_to requests_sent created_ids published_ids request_url app
           assoc_get].
      rewrite String.eqb_refl, Hpm.
      rewrite !(logs_no_requests _ logs2), (logs_no_requests_sent logs2),
        (logs_no_created _ logs2), (logs_no_published _ logs2) by assumption.
      cbn. repeat split; try reflexivity. discriminate.
    - destruct Hcase as (Hl & Herr).
      rewrite !(logs_no_requests _ tail), (logs_no_requests_sent tail),
        (logs_no_created _ tail), (logs_no_published _ tail) by assumption.
      repeat split; try reflexivity. intros _. exact Herr.
  Qed.
End PosterFacts.

Lemma post_missing {T : PyText} (w : World) (self : InstagramPoster.t)
    (path caption : string) (hashtags : option (list string)) (h : history) :
  fs_exists w h path = false ->
  InstagramPoster.post w self path caption hashtags h
  = (Err (mk_exn FileNotFoundError ("Image file not found: " ++ path)),
     [ELog InstagramPoster.logger ERROR ("Image file not found: " ++ path)]).
Proof.
  intros Hex. unfold InstagramPoster.post, Py.os_path_exists.
  unfold bind at 1. rewrite Hex. reflexivity.
Qed.

Lemma post_sends_full_caption {T : PyText} (w : World)
    (self : InstagramPoster.t) (path caption : string)
    (hashtags : option (list string)) (h : history) :
  fs_exists w h path = true ->
  requests_to (InstagramPoster.media_url self)
    (snd (InstagramPoster.post w self path caption hashtags h))
  = [creation_request self path (InstagramPoster.full_caption caption hashtags)].
Proof.
  intros Hex.
  destruct (post_observed w self path caption hashtags h Hex)
    as (cres & _ & H & _).
  exact H.
Qed.

(** C5.  When the image path does not exist, [post] raises
    FileNotFoundError at once: it sends no request at all (neither the
    container creation nor the publish), it does not sleep, and the one
    thing it emits is the error record that carries the message. *)
Theorem post_missing_file_fails_before_network :
  forall {T : PyText} (w : World) (self : InstagramPoster.t)
         (path caption : string) (hashtags : option (list string))
         (h : history),
    fs_exists w h path = false ->
    let run := InstagramPoster.post w self path caption hashtags h in
    fst run = Err (mk_exn FileNotFoundError ("Image file not found: " ++ path))
    /\ snd run = [ELog InstagramPoster.logger ERROR
                    ("Image file not found: " ++ path)]
    /\ requests_sent (snd run) = []
    /\ requests_to (InstagramPoster.media_url self) (snd run) = []
    /\ requests_to (InstagramPoster.media_publish_url self) (snd run) = []
    /\ sleeps (snd run) = [].
Proof.
  intros T w self path caption hashtags h Hex run. subst run.
  rewrite (post_missing w self path caption hashtags h Hex).
  repeat split.
Qed.

Lemma post_missing_file_fails_before_network_witness :
  requests_sent
    (snd (InstagramPoster.post (T := AsciiText.text) (Demo.world (fun _ => false))
            Demo.insta_poster "missing.png" "A caption." (Some ["art"]) []))
  = [].
Proof.
  apply (post_missing_file_fails_before_network (T := AsciiText.text)
           (Demo.world (fun _ => false)) Demo.insta_poster
           "missing.png" "A caption." (Some ["art"]) []).
  reflexivity.
Defined.

(** C9, as amended.  A run of [post] on a file that exists sends exactly
    one container-creation request, and a run on a missing file sends
    none; a run sends at most one publish request; the identifiers it
    publishes are exactly the identifiers that its own creation step
    returned, so a failed creation step means no publish request and a
    failed run.  No identifier passes from one run to another: when the
    backend returns different identifiers to the creations of two runs,
    the two runs publish different identifiers. *)
Theorem post_publishes_its_own_container :
  forall {T : PyText} (w : World) (self : InstagramPoster.t)
         (path caption : string) (hashtags : option (list string))
         (h : history),
    let run := InstagramPoster.post w self path caption hashtags h in
    let created := created_ids (InstagramPoster.media_url self) (snd run) in
    let published :=
      published_ids (InstagramPoster.media_publish_url self) (snd run) in
    length (requests_to (InstagramPoster.media_url self) (snd run))
    = (if fs_exists w h path then 1 else 0)%nat
    /\ (length (requests_to (InstagramPoster.media_publish_url self) (snd run))
        <= 1)%nat
    /\ requests_to (InstagramPoster.media_publish_url self) (snd run)
       = map (publish_request self) created
    /\ published = created
    /\ (created = [] ->
        requests_to (InstagramPoster.media_publish_url self) (snd run) = []
        /\ exists e, fst run = Err e)
    /\ (forall (self' : InstagramPoster.t) (path' caption' : string)
               (hashtags' : option (list string)) (h' : history),
          let run' := InstagramPoster.post w self' path' caption' hashtags' h' in
          NoDup (created
                 ++ created_ids (InstagramPoster.media_url self') (snd run'))%list ->
          NoDup (published
                 ++ published_ids (InstagramPoster.media_publish_url self')
                      (snd run'))%list).
Proof.
  intros T w.
  assert (Hone : forall (self : InstagramPoster.t) path caption hashtags h,
             let run := InstagramPoster.post w self path caption hashtags h in
             published_ids (InstagramPoster.media_publish_url self) (snd run)
             = created_ids (InstagramPoster.media_url self) (snd run)).
  { intros self path caption hashtags h run. subst run.
    destruct (fs_exists w h path) eqn:Hex.
    - destruct (post_observed w self path caption hashtags h Hex)
        as (cres & _ & _ & _ & _ & Hc & Hp & _).
      now rewrite Hc, Hp.
    - now rewrite (post_missing w self path caption hashtags h Hex). }
  intros self path caption hashtags h run created published.
  assert (Heq : published = created) by apply Hone.
  subst created published run.
  destruct (fs_exists w h path) eqn:Hex.
  - destruct (post_observed w self path caption hashtags h Hex)
      as (cres & _ & Hm & Hpub & _ & Hc & Hp & Herr).
    rewrite Hm, Hpub, Hc.
    split; [reflexivity |].
    split; [destruct (reply_id cres); simpl; lia |].
    split; [destruct (reply_id cres); reflexivity |].
    split; [now rewrite <- Hc |].
    split.
    + destruct (reply_id cres); [discriminate |]. intros _.
      split; [reflexivity | now apply Herr].
    + intros self' path' caption' hashtags' h'. cbv zeta.
      rewrite Heq, Hc, Hone. trivial.
  - rewrite (post_missing w self path caption hashtags h Hex) in *.
    cbn [snd fst requests_to created_ids published_ids map length].
    split; [reflexivity |]. split; [lia |]. split; [reflexivity |].
    split; [reflexivity |]. split.
    + intros _. split; [reflexivity | eexists; reflexivity].
    + intros self' path' caption' hashtags' h'. cbv zeta.
      rewrite Hone. trivial.
Qed.

Lemma post_publishes_its_own_container_witness :
  NoDup
    (published_ids (InstagramPoster.media_publish_url Demo.insta_poster)
       (snd (Demo.run_post None Demo.h_img))
     ++ published_ids (InstagramPoster.media_publish_url Demo.insta_poster)
          (snd (Demo.run_post None
                  (Demo.h_img ++ snd (Demo.run_post None Demo.h_img))%list)))%list.
Proof.
  apply (post_publishes_its_own_container (T := AsciiText.text)
           (Demo.world (fun _ => false)) Demo.insta_poster
           "img.png" "A caption." None Demo.h_img).
  vm_compute.
  constructor; [simpl; intros [H | []]; discriminate H |].
  constructor; [simpl; intros [] | constructor].
Defined.

(** C9 as stated fails on a run whose image file is missing: the run
    creates no container at all.  And the client takes the identifier
    that the backend gives: with a backend that gives the same
    identifier twice, two runs publish the same identifier. *)
Lemma post_missing_file_creates_no_container_counterexample :
  let run := InstagramPoster.post (T := AsciiText.text)
               (Demo.world (fun _ => false)) Demo.insta_poster
               "missing.png" "A caption." None [] in
  let first := InstagramPoster.post (T := AsciiText.text) Demo.world_same_id
                 Demo.insta_poster "img.png" "A caption." None Demo.h_img in
  let second := InstagramPoster.post (T := AsciiText.text) Demo.world_same_id
                  Demo.insta_poster "img.png" "A caption." None
                  (Demo.h_img ++ snd first)%list in
  requests_to (InstagramPoster.media_url Demo.insta_poster) (snd run) = []
  /\ length (requests_to (InstagramPoster.media_url Demo.insta_poster) (snd run))
     <> 1%nat
  /\ published_ids (InstagramPoster.media_publish_url Demo.insta_poster) (snd first)
     = [JStr "c"]
  /\ published_ids (InstagramPoster.media_publish_url Demo.insta_poster) (snd second)
     = [JStr "c"].
Proof. vm_compute. repeat split. discriminate. Qed.

(** C8, as amended.  For every caption and every hashtag list that is
    not empty, the caption that [post] builds equals [add_hashtags] of
    the same caption and list, and it is the caption of the
    container-creation request that [post] sends. *)
Theorem post_caption_agrees_with_add_hashtags :
  forall {T : PyText} (w : World) (poster : InstagramPoster.t)
         (describer : DescriptionGenerator.t) (path caption : string)
         (tags : list string) (h : history),
    tags <> [] ->
    InstagramPoster.full_caption caption (Some tags)
    = DescriptionGenerator.add_hashtags describer caption tags
    /\ (fs_exists w h path = true ->
        requests_to (InstagramPoster.media_url poster)
          (snd (InstagramPoster.post w poster path caption (Some tags) h))
        = [creation_request poster path
             (DescriptionGenerator.add_hashtags describer caption tags)]).
Proof.
  intros T w poster describer path caption tags h Htags.
  split; [now apply full_caption_nonempty |].
  intros Hex. rewrite (post_sends_full_caption w poster path caption _ h Hex).
  now rewrite (full_caption_nonempty describer caption tags Htags).
Qed.

Lemma post_caption_agrees_with_add_hashtags_witness :
  requests_to (InstagramPoster.media_url Demo.insta_poster)
    (snd (Demo.run_post (Some ["#art"; "ai"]) Demo.h_img))
  = [creation_request Demo.insta_poster "img.png"
       (DescriptionGenerator.add_hashtags Demo.desc_gen "A caption."
          ["#art"; "ai"])].
Proof.
  refine (proj2 (post_caption_agrees_with_add_hashtags (T := AsciiText.text)
                   (Demo.world (fun _ => false)) Demo.insta_poster
                   Demo.desc_gen "img.png" "A caption." ["#art"; "ai"]
                   Demo.h_img _) _).
  - discriminate.
  - reflexivity.
Defined.

(** C8 as stated fails on the empty hashtag list: [post] leaves the
    caption alone, [add_hashtags] appends the blank line. *)
Lemma post_caption_empty_list_counterexample :
  InstagramPoster.full_caption "x" (Some []) = "x"
  /\ DescriptionGenerator.add_hashtags Demo.desc_gen "x" [] = "x" ++ nl ++ nl
  /\ InstagramPoster.full_caption "x" (Some [])
     <> DescriptionGenerator.add_hashtags Demo.desc_gen "x" [].
Proof. repeat split. discriminate. Qed.

(** C10.  [add_hashtags caption []] is the caption followed by the
    blank-line separator and an empty hashtag line, never the caption
    itself; [post] with the empty list sends the caption unchanged; and
    the two merges differ exactly when the list is empty. *)
Theorem merge_paths_diverge_on_empty_list :
  forall {T : PyText} (w : World) (poster : InstagramPoster.t)
         (describer : DescriptionGenerator.t) (path caption : string)
         (h : history),
    DescriptionGenerator.add_hashtags describer caption [] = caption ++ nl ++ nl
    /\ DescriptionGenerator.add_hashtags describer caption [] <> caption
    /\ InstagramPoster.full_caption caption (Some []) = caption
    /\ (fs_exists w h path = true ->
        requests_to (InstagramPoster.media_url poster)
          (snd (InstagramPoster.post w poster path caption (Some []) h))
        = [creation_request poster path caption])
    /\ (forall tags : list string,
          InstagramPoster.full_caption caption (Some tags)
          <> DescriptionGenerator.add_hashtags describer caption tags
          <-> tags = []).
Proof.
  intros T w poster describer path caption h.
  assert (Hne : DescriptionGenerator.add_hashtags describer caption [] <> caption).
  { rewrite add_hashtags_empty. apply append_neq_self. discriminate. }
  split; [apply add_hashtags_empty |].
  split; [exact Hne |].
  split; [reflexivity |].
  split; [intros Hex;
          exact (post_sends_full_caption w poster path caption (Some []) h Hex) |].
  intros tags. split.
  - intros Hdiff. destruct tags as [|t tags]; [reflexivity |].
    elim Hdiff. apply full_caption_nonempty. discriminate.
  - intros ->. intros Heq. apply Hne. now rewrite <- Heq.
Qed.

Lemma merge_paths_diverge_on_empty_list_witness :
  requests_to (InstagramPoster.media_url Demo.insta_poster)
    (snd (Demo.run_post (Some []) Demo.h_img))
  = [creation_request Demo.insta_poster "img.png" "A caption."].
Proof.
  destruct (merge_paths_diverge_on_empty_list (T := AsciiText.text)
              (Demo.world (fun _ => false)) Demo.insta_poster Demo.desc_gen
              "img.png" "A caption." Demo.h_img)
    as (_ & _ & _ & Hsend & _).
  apply Hsend. reflexivity.
Defined.

(** * The image backend client: C7 *)

Section ImageFacts.
Context {T : PyText} (w : World).

Lemma generate_image_requests (self : ImageGenerator.t)
      (prompt output_dir : string) (width height : Z) (h : history) :
    let full_prompt :=
      if str_in (str_lower (ImageGenerator.style self)) (str_lower prompt)
      then prompt
      else prompt ++ ", " ++ ImageGenerator.style self in
    requests_sent
      (snd (ImageGenerator.generate_image w self prompt output_dir width height h))
    = [PostJson (ImageGenerator.api_url self) (ImageGenerator.headers self)
         {| inputs := full_prompt;
            parameters := {| width := width;
                             height := height;
                             num_inference_steps := 50;
                             guidance_scale := 15 # 2;
                             negative_prompt := "low quality, blurry, distorted" |} |}].
  Proof.
    intros full_prompt.
    unfold ImageGenerator.generate_image.
    replace (if negb (str_in (str_lower (ImageGenerator.style self)) (str_lower prompt))
             then prompt ++ ", " ++ ImageGenerator.style self else prompt)
      with full_prompt
      by (unfold full_prompt;
          now destruct (str_in (str_lower (ImageGenerator.style self))
                          (str_lower prompt))).
    clearbody full_prompt.
    unfold try_except, bind, log, emit, Py.requests_post, Py.raise_for_status,
      Py.datetime_now, Py.uuid4_str, Py.write_binary, Py.strftime, ret, raise.
    cbn.
    match goal with
    | |- context [http w ?hh ?rq] => destruct (http w hh rq) as [resp | e]
    end; cbn.
    - destruct ((400 <=? status_code resp)%Z && (status_code resp <? 500)%Z); cbn;
        [reflexivity |].
      destruct ((500 <=? status_code resp)%Z && (status_code resp <? 600)%Z); cbn;
        [reflexivity |].
      match goal with
      | |- context [fs_write w ?hh ?p ?d] => destruct (fs_write w hh p d) as [u | e]
      end; cbn; [reflexivity |].
      destruct (is_RequestException e); cbn; [| reflexivity].
      destruct (exn_response e); reflexivity.
    - destruct (is_RequestException e); cbn; [| reflexivity].
      destruct (exn_response e); reflexivity.
  Qed.
End ImageFacts.

(** C7.  [generate_image] sends one request to the image backend, and
    the prompt in its payload is the prompt followed by ", " and the
    style when the lowercase style is not a substring of the lowercase
    prompt, and the prompt unchanged when it is. *)
Theorem image_payload_prompt_has_style :
  forall {T : PyText} (w : World) (self : ImageGenerator.t)
         (prompt output_dir : string) (width height : Z) (h : history),
    exists payload,
      requests_sent
        (snd (ImageGenerator.generate_image w self prompt output_dir width height h))
      = [PostJson (ImageGenerator.api_url self) (ImageGenerator.headers self) payload]
      /\ (~ is_substring (str_lower (ImageGenerator.style self)) (str_lower prompt) ->
          inputs payload = prompt ++ ", " ++ ImageGenerator.style self)
      /\ (is_substring (str_lower (ImageGenerator.style self)) (str_lower prompt) ->
          inputs payload = prompt).
Proof.
  intros T w self prompt output_dir width height h.
  eexists. split; [apply generate_image_requests |].
  cbn [inputs]. split; intros H.
  - apply str_in_false_iff in H. now rewrite H.
  - apply str_in_iff in H. now rewrite H.
Qed.

Lemma image_payload_prompt_has_style_witness :
  exists payload payload',
    requests_sent
      (snd (ImageGenerator.generate_image (T := AsciiText.text)
              (Demo.world (fun _ => false)) Demo.image_gen
              "a lighthouse at dawn" "output" 1024 1024 []))
    = [PostJson (ImageGenerator.api_url Demo.image_gen)
         (ImageGenerator.headers Demo.image_gen) payload]
    /\ inputs payload = "a lighthouse at dawn, digital art"
    /\ requests_sent
         (snd (ImageGenerator.generate_image (T := AsciiText.text)
                 (Demo.world (fun _ => false)) Demo.image_gen
                 "Lighthouse, Digital Art" "output" 1024 1024 []))
       = [PostJson (ImageGenerator.api_url Demo.image_gen)
            (ImageGenerator.headers Demo.image_gen) payload']
    /\ inputs payload' = "Lighthouse, Digital Art".
Proof.
  destruct (image_payload_prompt_has_style (T := AsciiText.text)
              (Demo.world (fun _ => false)) Demo.image_gen
              "a lighthouse at dawn" "output" 1024 1024 [])
    as (payload & Hsent & Habsent & _).
  destruct (image_payload_prompt_has_style (T := AsciiText.text)
              (Demo.world (fun _ => false)) Demo.image_gen
              "Lighthouse, Digital Art" "output" 1024 1024 [])
    as (payload' & Hsent' & _ & Hpresent).
  exists payload, payload'.
  split; [exact Hsent |]. split.
  - apply Habsent. apply str_in_false_iff. reflexivity.
  - split; [exact Hsent' |]. apply Hpresent. apply str_in_iff. reflexivity.
Defined.

(** * The caption backend client: C6, C3 *)

Lemma try_except_total {A} (m : M A) (handler : exn -> M A) :
  (forall e h, exists a, fst (handler e h) = Ok a) ->
  forall h, exists a, fst (try_except m handler h) = Ok a.
Proof.
  intros Hh h. unfold try_except.
  destruct (m h) as [[a | e] es]; [now exists a |].
  destruct (Hh e (h ++ es)%list) as [a Ha].
  destruct (handler e (h ++ es)%list) as [r es']. now exists a.
Qed.

Lemma try_except_ok {A} (m : M A) (handler : exn -> M A) (h : history) (a : A) :
  fst (m h) = Ok a -> fst (try_except m handler h) = Ok a.
Proof.
  unfold try_except. destruct (m h) as [[a' | e] es]; simpl; congruence.
Qed.

(** C6.  [_get_image_description] never raises.  When the file cannot
    be read (a path that does not exist), when the request raises, or
    when the reply has no text block in front, it returns the fixed text
    "An amazing image"; when the file cannot be read it sends no
    request.  Otherwise it returns the text of the reply. *)
Theorem get_image_description_never_raises :
  forall {T : PyText} (w : World) (self : DescriptionGenerator.t)
         (image_path : string) (h : history),
    let run := DescriptionGenerator._get_image_description w self image_path h in
    (exists s, fst run = Ok s)
    /\ (forall e, fs_read w h image_path = Err e ->
          fst run = Ok "An amazing image" /\ claude_requests_sent (snd run) = [])
    /\ (forall img e,
          fs_read w h image_path = Ok img ->
          claude w h (vision_request self img) = Err e ->
          fst run = Ok "An amazing image")
    /\ (forall img m,
          fs_read w h image_path = Ok img ->
          claude w h (vision_request self img) = Ok m ->
          (forall s rest, msg_content m <> TextBlock s :: rest) ->
          fst run = Ok "An amazing image")
    /\ (forall img m s rest,
          fs_read w h image_path = Ok img ->
          claude w h (vision_request self img) = Ok m ->
          msg_content m = TextBlock s :: rest ->
          fst run = Ok s).
Proof.
  intros T w self image_path h run. subst run.
  unfold DescriptionGenerator._get_image_description.
  split.
  { apply try_except_total. intros e h'. eexists. reflexivity. }
  unfold try_except, bind, Py.read_binary, Py.messages_create,
    Py.first_block_text, log, emit, ret, raise.
  rewrite app_nil_r. fold (vision_request self).
  split; [intros e Hr; rewrite Hr; split; reflexivity |].
  split; [intros img e Hr Hc; rewrite Hr; cbn; fold (vision_request self img);
          rewrite Hc; reflexivity |].
  split.
  - intros img m Hr Hc Hbad. rewrite Hr. cbn. fold (vision_request self img).
    rewrite Hc. cbn.
    destruct (msg_content m) as [|[s |] rest] eqn:Hm; try reflexivity.
    now elim (Hbad s rest).
  - intros img m s rest Hr Hc Hm. rewrite Hr. cbn.
    fold (vision_request self img). rewrite Hc. cbn. now rewrite Hm.
Qed.

Lemma get_image_description_never_raises_witness :
  fst (DescriptionGenerator._get_image_description (T := AsciiText.text)
         (Demo.world (fun _ => false)) Demo.desc_gen "missing.png" [])
  = Ok "An amazing image".
Proof.
  destruct (get_image_description_never_raises (T := AsciiText.text)
              (Demo.world (fun _ => false)) Demo.desc_gen "missing.png" [])
    as (_ & Hmissing & _).
  apply (Hmissing
           (mk_exn FileNotFoundError "No such file or directory: missing.png")).
  reflexivity.
Defined.

Lemma bind_run {A B} (m : M A) (k : A -> M B) (h : history) :
  fst (bind m k h)
  = match m h with
    | (Ok a, es) => fst (k a (h ++ es)%list)
    | (Err e, _) => Err e
    end.
Proof.
  unfold bind. destruct (m h) as [[a | e] es]; [| reflexivity].
  now destruct (k a (h ++ es)%list).
Qed.

Lemma log_bind_run {B} (l : string) (lvl : level) (msg : string) (k : M B)
    (h : history) :
  fst ((log l lvl msg ;;; k) h) = fst (k (h ++ [ELog l lvl msg])%list).
Proof. now rewrite bind_run. Qed.

Lemma random_choice_in (w : World) (l : list string) (h : history) :
  l <> [] ->
  exists s k, Py.random_choice w l h = (Ok s, [ERandom k]) /\ In s l.
Proof.
  destruct l as [|x l]; [intros H; now elim H | intros _].
  unfold Py.random_choice.
  eexists. eexists. split; [reflexivity |].
  apply nth_In. apply Nat.mod_upper_bound. discriminate.
Qed.

Lemma fallback_shape (opener prompt closer : string) :
  opener ++ " " ++ prompt ++ " " ++ closer <> ""
  /\ is_substring prompt (opener ++ " " ++ prompt ++ " " ++ closer).
Proof.
  split.
  - destruct opener; discriminate.
  - exists (opener ++ " "), (" " ++ closer). now rewrite append_assoc.
Qed.

Section CaptionFacts.
Context {T : PyText} (w : World).

  (** What [generate_description] returns, by how its [try] ends. *)
Lemma generate_description_cases (self : DescriptionGenerator.t)
      (prompt : string) (image_path : option string) (max_length : Z)
      (h : history) :
    DescriptionGenerator.openers self <> [] ->
    DescriptionGenerator.closers self <> [] ->
    match fst (DescriptionGenerator.generate_description_try w self prompt
                 image_path max_length (h ++ [entry_log prompt])%list) with
    | Ok s =>
        fst (DescriptionGenerator.generate_description w self prompt image_path
               max_length h) = Ok s
    | Err _ =>
        exists opener closer,
          In opener (DescriptionGenerator.openers self)
          /\ In closer (DescriptionGenerator.closers self)
          /\ fst (DescriptionGenerator.generate_description w self prompt
                    image_path max_length h)
             = Ok (opener ++ " " ++ prompt ++ " " ++ closer)
    end.
  Proof.
    intros Ho Hc.
    unfold DescriptionGenerator.generate_description.
    rewrite log_bind_run. fold (entry_log prompt).
    unfold try_except.
    destruct (DescriptionGenerator.generate_description_try w self prompt
                image_path max_length (h ++ [entry_log prompt])%list)
      as [[s | e] es]; cbn [fst]; [reflexivity |].
    match goal with
    | |- context [bind ?m ?k ?hh] =>
        destruct (bind m k hh) as [r es'] eqn:Hrun;
        assert (Hr : fst (bind m k hh) = r) by now rewrite Hrun
    end.
    cbn [fst]. clear Hrun. rewrite log_bind_run, bind_run in Hr.
    match type of Hr with
    | context [Py.random_choice w _ ?hh] =>
        destruct (random_choice_in w (DescriptionGenerator.openers self) hh Ho)
          as (opener & k1 & Hrc1 & Hin1)
    end.
    rewrite Hrc1 in Hr. rewrite bind_run in Hr.
    match type of Hr with
    | context [Py.random_choice w (DescriptionGenerator.closers self) ?hh] =>
        destruct (random_choice_in w (DescriptionGenerator.closers self) hh Hc)
          as (closer & k2 & Hrc2 & Hin2)
    end.
    rewrite Hrc2 in Hr. cbn in Hr.
    exists opener, closer. now subst r.
  Qed.

  (** With the backend down, a template that cannot be formatted, or
      replies without a text block in front, the [try] cannot end well. *)
Lemma generate_description_try_fails (self : DescriptionGenerator.t)
      (prompt : string) (image_path : option string) (max_length : Z)
      (h : history) :
    (forall h' req, exists e, claude w h' req = Err e)
    \/ (forall kw, exists e,
          str_format (DescriptionGenerator.prompt_template self) kw = Err e)
    \/ (forall h' req m s rest,
          claude w h' req = Ok m -> msg_content m <> TextBlock s :: rest) ->
    exists e,
      fst (DescriptionGenerator.generate_description_try w self prompt
             image_path max_length h) = Err e.
  Proof.
    intros Hbad.
    unfold DescriptionGenerator.generate_description_try.
    rewrite bind_run.
    match goal with
    | |- context [match ?m h with _ => _ end] => destruct (m h) as [[d | e] es]
    end; [| now exists e].
    rewrite bind_run.
    destruct (Py.random_choice w (DescriptionGenerator.openers self) (h ++ es)%list)
      as [[opener | e] es1]; [| now exists e].
    rewrite bind_run.
    destruct (Py.random_choice w (DescriptionGenerator.closers self)
                ((h ++ es) ++ es1)%list)
      as [[closer | e] es2]; [| now exists e].
    rewrite bind_run. unfold lift at 1.
    destruct (str_format _ _) as [formatted | e] eqn:Hfmt; [| now exists e].
    rewrite bind_run. unfold Py.messages_create at 1.
    match goal with
    | |- context [claude w ?hh ?rq] => destruct (claude w hh rq) as [m | e] eqn:Hm
    end; [| now exists e].
    destruct Hbad as [Hdown | [Hformat | Hreply]].
    - match type of Hm with
      | claude w ?hh ?rq = _ => destruct (Hdown hh rq) as [e He]
      end.
      rewrite He in Hm. discriminate Hm.
    - match type of Hfmt with
      | str_format _ ?kw = _ => destruct (Hformat kw) as [e He]
      end.
      rewrite He in Hfmt. discriminate Hfmt.
    - rewrite bind_run. unfold Py.first_block_text.
      destruct (msg_content m) as [|[s |] rest] eqn:Hc;
        try (eexists; reflexivity).
      now elim (Hreply _ _ m s rest Hm).
  Qed.
End CaptionFacts.

Lemma init_phrases (template key model : string)
    (h0 : history) (self : DescriptionGenerator.t) :
  fst (DescriptionGenerator.init template key model h0) = Ok self ->
  DescriptionGenerator.openers self = DescriptionGenerator.the_openers
  /\ DescriptionGenerator.closers self = DescriptionGenerator.the_closers
  /\ DescriptionGenerator.prompt_template self = template.
Proof.
  unfold DescriptionGenerator.init. rewrite log_bind_run. cbn.
  intros H. injection H as <-. repeat split.
Qed.

(** C3.  [generate_description], on a generator built by the
    constructor, never raises.  When its [try] ends well it returns that
    text; whenever the [try] raises, whatever the step, it returns
    "opener prompt closer" with an opener and a closer of the two fixed
    lists.  The [try] raises when the backend raises on every call, when
    the template cannot be formatted, and when the replies carry no
    text; the caption returned then is not empty and contains the
    prompt. *)
Theorem generate_description_never_raises :
  forall {T : PyText} (w : World) (template key model : string)
         (self : DescriptionGenerator.t) (prompt : string)
         (image_path : option string) (max_length : Z) (h0 h : history),
    fst (DescriptionGenerator.init template key model h0) = Ok self ->
    let run := DescriptionGenerator.generate_description w self prompt
                 image_path max_length h in
    let attempt := DescriptionGenerator.generate_description_try w self prompt
                     image_path max_length (h ++ [entry_log prompt])%list in
    (exists s, fst run = Ok s)
    /\ (forall s, fst attempt = Ok s -> fst run = Ok s)
    /\ (forall e, fst attempt = Err e ->
          exists opener closer,
            In opener DescriptionGenerator.the_openers
            /\ In closer DescriptionGenerator.the_closers
            /\ fst run = Ok (opener ++ " " ++ prompt ++ " " ++ closer))
    /\ ((forall h' req, exists e, claude w h' req = Err e)
        \/ (forall kw, exists e, str_format template kw = Err e)
        \/ (forall h' req m s rest,
              claude w h' req = Ok m -> msg_content m <> TextBlock s :: rest) ->
        exists opener closer,
          In opener DescriptionGenerator.the_openers
          /\ In closer DescriptionGenerator.the_closers
          /\ fst run = Ok (opener ++ " " ++ prompt ++ " " ++ closer)
          /\ opener ++ " " ++ prompt ++ " " ++ closer <> ""
          /\ is_substring prompt (opener ++ " " ++ prompt ++ " " ++ closer)).
Proof.
  intros T w template key model self prompt image_path max_length h0 h Hinit
    run attempt.
  destruct (init_phrases template key model h0 self Hinit) as (Ho & Hc & Ht).
  assert (Hcases := generate_description_cases w self prompt image_path
                      max_length h).
  rewrite Ho, Hc in Hcases.
  specialize (Hcases ltac:(discriminate) ltac:(discriminate)).
  fold attempt run in Hcases.
  assert (Hfall : forall e, fst attempt = Err e ->
            exists opener closer,
              In opener DescriptionGenerator.the_openers
              /\ In closer DescriptionGenerator.the_closers
              /\ fst run = Ok (opener ++ " " ++ prompt ++ " " ++ closer)).
  { intros e He. rewrite He in Hcases. exact Hcases. }
  split.
  { destruct (fst attempt) as [s | e] eqn:Ha.
    - now exists s.
    - destruct (Hfall e eq_refl) as (o & c & _ & _ & Hr). eexists. exact Hr. }
  split.
  { intros s Hs. now rewrite Hs in Hcases. }
  split; [exact Hfall |].
  intros Hbad.
  destruct (generate_description_try_fails w self prompt image_path max_length
              (h ++ [entry_log prompt])%list) as [e He].
  { rewrite Ht. exact Hbad. }
  destruct (Hfall e He) as (o & c & Hino & Hinc & Hr).
  exists o, c. destruct (fallback_shape o prompt c) as [Hne Hsub].
  repeat split; assumption.
Qed.

Lemma generate_description_never_raises_witness :
  exists opener closer,
    In opener DescriptionGenerator.the_openers
    /\ In closer DescriptionGenerator.the_closers
    /\ fst (DescriptionGenerator.generate_description (T := AsciiText.text)
              Demo.world_claude_down Demo.desc_gen "a lighthouse at dawn"
              None 2000 [])
       = Ok (opener ++ " " ++ "a lighthouse at dawn" ++ " " ++ closer)
    /\ opener ++ " " ++ "a lighthouse at dawn" ++ " " ++ closer <> ""
    /\ is_substring "a lighthouse at dawn"
         (opener ++ " " ++ "a lighthouse at dawn" ++ " " ++ closer).
Proof.
  destruct (generate_description_never_raises (T := AsciiText.text)
              Demo.world_claude_down
              "{opener} Write a caption for {image_prompt}: {image_description} {closer}"
              "sk" DescriptionGenerator.default_model Demo.desc_gen
              "a lighthouse at dawn" None 2000 [] [] eq_refl)
    as (_ & _ & _ & Hdown).
  apply Hdown. left. intros h' req. eexists. reflexivity.
Defined.

(** * The scheduled workflow: C1, C2 *)

Lemma for_each_run {A} (xs : list A) (body : A -> M unit) :
  (forall x h, fst (body x h) = Ok tt) ->
  forall h,
    for_each xs body h = (Ok tt, for_each_events xs body h).
Proof.
  intros Hbody. induction xs as [|x xs IH]; intros h; [reflexivity |].
  cbn [for_each for_each_events]. unfold bind.
  specialize (Hbody x h). destruct (body x h) as [r es]. cbn [fst snd] in *.
  subst r. now rewrite IH.
Qed.

(** The record of a failure is looked for right after the failed call:
    a trace that does not end on a failed call can be cut there. *)
Lemma records_after_failures_app (l : string) (a : list event) (x : event)
    (b : list event) :
  is_failed_call x = false ->
  records_after_failures l ((a ++ [x]) ++ b)
  = (records_after_failures l (a ++ [x]) ++ records_after_failures l b)%list.
Proof.
  intros Hx. induction a as [|y a IH].
  - cbn [app]. destruct x; try reflexivity.
    destruct raised; [discriminate Hx | reflexivity].
  - cbn [app records_after_failures]. rewrite IH.
    destruct y; try reflexivity.
    destruct raised; [| reflexivity].
    destruct (fn =? "single_post_workflow"); [| reflexivity].
    destruct a as [|z a]; cbn [app].
    + destruct x; try reflexivity.
      destruct lvl; try reflexivity.
      destruct (logger =? l); reflexivity.
    + destruct z; try reflexivity.
      destruct lvl; try reflexivity.
      destruct (logger =? l); reflexivity.
Qed.


Lemma failed_attempts_app (a b : list event) :
  failed_attempts (a ++ b) = (failed_attempts a + failed_attempts b)%nat.
Proof.
  unfold failed_attempts. now rewrite attempts_app, filter_app, length_app.
Qed.

Ltac cut_last :=
  match goal with
  | |- exists front final, ?es = _ /\ _ =>
      exists (removelast es), (last es (ESleep 0))
  end;
  split; [reflexivity | split; reflexivity].

Section ScheduleFacts.
Context {T : PyText} (w : World).
Variables (image_gen : ImageGenerator.t) (desc_gen : DescriptionGenerator.t)
            (insta_poster : InstagramPoster.t) (config : Main.Config)
            (output_dir : string).

Local Abbreviation turn :=
    (Main.scheduled_iteration w image_gen desc_gen insta_poster config output_dir).

  (** One turn of the loop.  Whatever the single post does, the turn
      ends well, makes exactly one attempt, writes the record of a
      failed attempt right after it, and writes one error record at
      most.  When the sleep step cannot fail, it records exactly the
      failure of the attempt and sleeps exactly after a success that is
      not the last turn. *)
Lemma turn_run (freq n i : Z) (h : history) :
    fst (turn freq n i h) = Ok tt
    /\ exists o,
        (exists front final,
            snd (turn freq n i h) = (front ++ [final])%list
            /\ is_failed_call final = false
            /\ attempts (snd (turn freq n i h)) = [o])
        /\ records_after_failures Main.logger (snd (turn freq n i h))
           = failure_records (i + 1) [o]
        /\ (failed_attempts (snd (turn freq n i h))
            <= length (errors_logged Main.logger (snd (turn freq n i h))) <= 1)%nat
        /\ ((0 <= freq * 3600 <= Py.sleep_limit)%Z ->
            (forall t, In (EClock t) (snd (turn freq n i h)) ->
                       fromtimestamp_error w (t + freq * 3600) = None) ->
            errors_logged Main.logger (snd (turn freq n i h))
            = failure_records (i + 1) [o]
            /\ sleeps (snd (turn freq n i h))
               = sleeps_after n (freq * 3600) i [o]).
  Proof.
    unfold Main.scheduled_iteration.
    generalize (Main.single_post_workflow w image_gen desc_gen insta_poster
                  config output_dir).
    intros step.
    unfold try_except, bind, call, log, emit, ret, raise, Py.datetime_now,
      Py.datetime_fromtimestamp, Py.time_sleep, Py.strftime, Py.sleep_limit.
    cbn.
    match goal with
    | |- context [step ?hh] => destruct (step hh) as [[j | e] ses]
    end; cbn.
    2: { split; [reflexivity |]. eexists. split; [cut_last |].
         split; [reflexivity |]. split; [cbn; lia |].
         intros _ _. split; reflexivity. }
    destruct (i <? n - 1)%Z eqn:Hlast; cbn.
    2: { split; [reflexivity |]. eexists. split; [cut_last |].
         split; [reflexivity |]. split; [cbn; lia |].
         intros _ _. cbn [failure_records sleeps_after]. rewrite ?Hlast.
         split; reflexivity. }
    match goal with
    | |- context [fromtimestamp_error w (?t + _)] =>
        set (now := t);
        destruct (fromtimestamp_error w (now + freq * 3600)%Z) as [e |] eqn:Hts
    end; cbn.
    { split; [reflexivity |]. eexists. split; [cut_last |].
      split; [reflexivity |]. split; [cbn; lia |].
      intros _ Hnone. rewrite (Hnone now) in Hts; [discriminate Hts |].
      do 2 right. left. reflexivity. }
    destruct ((freq * 3600 <? -9223372036)%Z
              || (9223372036 <? freq * 3600)%Z) eqn:Hover; cbn.
    { split; [reflexivity |]. eexists. split; [cut_last |].
      split; [reflexivity |]. split; [cbn; lia |].
      intros Hrange _. apply orb_true_iff in Hover.
      destruct Hover as [Hover | Hover]; apply Z.ltb_lt in Hover; lia. }
    destruct (freq * 3600 <? 0)%Z eqn:Hneg; cbn.
    { split; [reflexivity |]. eexists. split; [cut_last |].
      split; [reflexivity |]. split; [cbn; lia |].
      intros Hrange _. apply Z.ltb_lt in Hneg. lia. }
    split; [reflexivity |]. eexists. split; [cut_last |].
    split; [reflexivity |]. split; [cbn; lia |].
    intros _ _. cbn [failure_records sleeps_after]. rewrite ?Hlast.
    split; reflexivity.
  Qed.

  (** The turns for the indices [a], [a+1], ..., [a+k-1]. *)
Lemma turns_run (freq n : Z) (k a : nat) (h : history) :
    let es := for_each_events (map Z.of_nat (seq a k)) (turn freq n) h in
    length (attempts es) = k
    /\ (es = []
        \/ exists front final,
             es = (front ++ [final])%list /\ is_failed_call final = false)
    /\ records_after_failures Main.logger es
       = failure_records (Z.of_nat a + 1) (attempts es)
    /\ (failed_attempts es <= length (errors_logged Main.logger es) <= k)%nat
    /\ ((0 <= freq * 3600 <= Py.sleep_limit)%Z ->
        (forall t, In (EClock t) es ->
                   fromtimestamp_error w (t + freq * 3600) = None) ->
        errors_logged Main.logger es
        = failure_records (Z.of_nat a + 1) (attempts es)
        /\ sleeps es = sleeps_after n (freq * 3600) (Z.of_nat a) (attempts es)).
  Proof.
    revert a h. induction k as [|k IH]; intros a h.
    - cbn. split; [reflexivity |]. split; [now left |].
      split; [reflexivity |]. split; [lia |]. intros _ _. split; reflexivity.
    - cbn [seq map for_each_events]. cbv zeta.
      destruct (turn_run freq n (Z.of_nat a) h)
        as (_ & o & (f1 & x1 & Hcut1 & Hx1 & Ho) & Hrec1 & Hle1 & Hgood1).
      set (es1 := snd (turn freq n (Z.of_nat a) h)) in *.
      specialize (IH (S a) (h ++ es1)%list). cbv zeta in IH.
      set (es2 := for_each_events (map Z.of_nat (seq (S a) k)) (turn freq n)
                    (h ++ es1)%list) in *.
      destruct IH as (IHlen & IHcut & IHrec & IHle & IHgood).
      replace (Z.of_nat (S a)) with (Z.of_nat a + 1)%Z in * by lia.
      rewrite attempts_app, errors_logged_app, sleeps_app, failed_attempts_app,
        !length_app, Ho, IHlen.
      split; [reflexivity |].
      split.
      { right. destruct IHcut as [-> | (f2 & x2 & -> & Hx2)].
        - exists f1, x1. now rewrite app_nil_r.
        - exists (es1 ++ f2)%list, x2. now rewrite app_assoc. }
      split.
      { rewrite Hcut1, records_after_failures_app by exact Hx1.
        rewrite <- Hcut1, Hrec1, IHrec.
        cbn [app failure_records]. now destruct o. }
      split; [cbn [length]; lia |].
      intros Hrange Hts.
      destruct Hgood1 as (He1 & Hs1);
        [exact Hrange | intros t Ht; apply Hts, in_or_app; now left |].
      destruct IHgood as (He2 & Hs2);
        [exact Hrange | intros t Ht; apply Hts, in_or_app; now right |].
      rewrite He1, Hs1, He2, Hs2.
      cbn [app failure_records sleeps_after].
      destruct o as [e |]; [split; reflexivity |].
      destruct (Z.of_nat a <? n - 1)%Z; split; reflexivity.
  Qed.

  (** The run of [scheduled_workflow]: the opening record, then the turns. *)
Lemma scheduled_run (h : history) :
    Main.scheduled_workflow w image_gen desc_gen insta_poster config output_dir h
    = (Ok tt,
       start_log config
       :: for_each_events (range (Main.total_posts_of config))
            (turn (Main.post_frequency_hours config) (Main.total_posts_of config))
            (h ++ [start_log config])%list).
  Proof.
    unfold Main.scheduled_workflow, bind, log, emit. fold (start_log config).
    rewrite for_each_run; [reflexivity |].
    intros i h'. apply (turn_run _ _ i h').
  Qed.
End ScheduleFacts.




(** The sleeps of a scheduled run, when no sleep step can raise: one, of
    the interval in seconds, after each attempt that ended well and is
    not the last. *)
Lemma scheduled_workflow_sleeps {T : PyText} (w : World)
    (image_gen : ImageGenerator.t) (desc_gen : DescriptionGenerator.t)
    (insta_poster : InstagramPoster.t) (config : Main.Config)
    (output_dir : string) (h : history) :
  let run := Main.scheduled_workflow w image_gen desc_gen insta_poster config
               output_dir h in
  (0 <= Main.post_frequency_hours config * 3600 <= Py.sleep_limit)%Z ->
  (forall t, In (EClock t) (snd run) ->
             fromtimestamp_error w
               (t + Main.post_frequency_hours config * 3600) = None) ->
  sleeps (snd run)
  = sleeps_after (Main.total_posts_of config)
      (Main.post_frequency_hours config * 3600) 0 (attempts (snd run)).
Proof.
  intros run. subst run. rewrite scheduled_run. cbn [snd].
  intros Hrange Hts.
  destruct (turns_run w image_gen desc_gen insta_poster config output_dir
              (Main.post_frequency_hours config) (Main.total_posts_of config)
              (Z.to_nat (Main.total_posts_of config)) 0
              (h ++ [start_log config])%list)
    as (_ & _ & _ & _ & Hgood).
  cbv zeta in Hgood. fold (range (Main.total_posts_of config)) in *.
  destruct Hgood as (_ & Hsleeps);
    [exact Hrange | intros t Ht; apply Hts; now right |].
  exact Hsleeps.
Qed.

(** C2 does not hold of the code.  In the scheduled run of three posts
    every 24 hours whose second single post fails, the loop sleeps once,
    after the first post, and not twice: the failure of the second post
    jumps over the sleep that follows it. *)
Theorem scheduled_workflow_skips_sleep_after_failure :
  let run := Demo.run_scheduled Demo.second_fails 3 in
  fst run = Ok tt
  /\ attempts (snd run)
     = [None; Some (mk_exn ConnectionError "Connection refused"); None]
  /\ sleeps (snd run) = [86400%Z]
  /\ length (sleeps (snd run)) <> (3 - 1)%nat.
Proof. vm_compute. repeat split. discriminate. Qed.

(** With no failure the same run sleeps twice. *)
Example scheduled_workflow_sleeps_between_posts :
  sleeps (snd (Demo.run_scheduled (fun _ => false) 3)) = [86400%Z; 86400%Z].
Proof. vm_compute. reflexivity. Qed.

(** * Further properties: the image backend client *)

Ltac split_in :=
  repeat match goal with
         | H : _ \/ _ |- _ => destruct H as [H | H]
         | H : False |- _ => destruct H
         | H : In _ (_ :: _) |- _ => destruct H as [H | H]
         | H : In _ [] |- _ => destruct H
         end.

Ltac image_cases w :=
  unfold ImageGenerator.generate_image;
  unfold try_except, bind, log, emit, Py.requests_post, Py.raise_for_status,
    Py.datetime_now, Py.uuid4_str, Py.write_binary, Py.strftime, ret, raise;
  cbn;
  match goal with
  | |- context [http w ?hh ?rq] =>
      let resp := fresh "resp" in
      let e := fresh "e" in
      let Hhttp := fresh "Hhttp" in
      destruct (http w hh rq) as [resp | e] eqn:Hhttp
  end; cbn;
  [ let H4 := fresh "H4xx" in
    destruct ((400 <=? status_code _)%Z && (status_code _ <? 500)%Z) eqn:H4; cbn;
    [ | let H5 := fresh "H5xx" in
        destruct ((500 <=? status_code _)%Z && (status_code _ <? 600)%Z) eqn:H5;
        cbn;
        [ | match goal with
            | |- context [fs_write w ?hh ?p ?d] =>
                let u := fresh "u" in
                let e := fresh "e" in
                let Hw := fresh "Hwrite" in
                destruct (fs_write w hh p d) as [u | e] eqn:Hw
            end; cbn;
            [ | destruct (is_RequestException _); cbn;
                [destruct (exn_response _); cbn | ] ] ] ]
  | destruct (is_RequestException _); cbn;
    [destruct (exn_response _); cbn | ] ].


(** X2.  [generate_image] re-raises what went wrong as it is: the
    exception of the request, or the exception of the write of the
    file, is the exception the caller gets. *)
Theorem generate_image_reraises_unchanged :
  forall {T : PyText} (w : World) (self : ImageGenerator.t)
         (prompt output_dir : string) (width height : Z) (h : history),
    let run := ImageGenerator.generate_image w self prompt output_dir
                 width height h in
    (forall req e, In (EHttp req (Err e)) (snd run) -> fst run = Err e)
    /\ (forall path data e,
          In (EWrite path data (Err e)) (snd run) -> fst run = Err e).
Proof.
  intros T w self prompt output_dir width height h run. subst run.
  image_cases w; split; intros;
    split_in;
    try discriminate; try (injection H as <-; reflexivity);
    try (injection H as _ <-; reflexivity);
    try (injection H as _ _ <-; reflexivity).
Qed.

Lemma generate_image_reraises_unchanged_witness :
  fst (Script.run_image Script.world_timeout "a lighthouse at dawn")
  = Err (mk_exn Timeout "Read timed out.")
  /\ fst (Script.run_image (Script.read_only Script.calm) "a lighthouse at dawn")
     = Err (mk_exn OSError
              "Read-only file system: output/generated_image_1700000000_123e4567.png").
Proof.
  split.
  - eapply (proj1 (generate_image_reraises_unchanged (T := AsciiText.text)
                     Script.world_timeout Demo.image_gen "a lighthouse at dawn"
                     "output" 1024 1024 [])).
    vm_compute. right. left. reflexivity.
  - eapply (proj2 (generate_image_reraises_unchanged (T := AsciiText.text)
                     (Script.read_only Script.calm) Demo.image_gen
                     "a lighthouse at dawn" "output" 1024 1024 [])).
    vm_compute. do 4 right. left. reflexivity.
Defined.

(** X3.  A reply with a status from 400 to 599 makes [generate_image]
    raise HTTPError with the reply attached, before the clock is read:
    nothing is written, and the three error records give the failure,
    the status and the text of the reply. *)
Theorem generate_image_http_error_status :
  forall {T : PyText} (w : World) (self : ImageGenerator.t)
         (prompt output_dir : string) (width height : Z) (h : history)
         (req : http_request) (resp : http_response),
    let run := ImageGenerator.generate_image w self prompt output_dir
                 width height h in
    In (EHttp req (Ok resp)) (snd run) ->
    (400 <= status_code resp < 600)%Z ->
    exists msg,
      fst run = Err {| exn_class_of := HTTPError; exn_msg := msg;
                       exn_response := Some resp |}
      /\ files_written (snd run) = []
      /\ error_records (snd run)
         = [ "API request failed: " ++ msg;
             "Response status: " ++ str_Z (status_code resp);
             "Response text: " ++ text resp ]
      /\ (forall t, ~ In (EClock t) (snd run)).
Proof.
  intros T w self prompt output_dir width height h req resp run. subst run.
  image_cases w; intros Hin Hstatus;
    split_in;
    try discriminate;
    try (injection Hin as _ <-);
    try (apply andb_false_iff in H4xx, H5xx; lia).
  - eexists. split; [reflexivity |]. split; [reflexivity |].
    split; [reflexivity |].
    intros t Ht.
    split_in; discriminate.
  - eexists. split; [reflexivity |]. split; [reflexivity |].
    split; [reflexivity |].
    intros t Ht.
    split_in; discriminate.
Qed.

Lemma generate_image_http_error_status_witness :
  exists msg,
    fst (Script.run_image (Script.world_status 404 "Not Found" "no such model")
           "a lighthouse at dawn")
    = Err {| exn_class_of := HTTPError; exn_msg := msg;
             exn_response :=
               Some (Script.reply 404 "Not Found" "no such model" None
                       (ImageGenerator.api_url Demo.image_gen)) |}
    /\ error_records
         (snd (Script.run_image (Script.world_status 404 "Not Found" "no such model")
                 "a lighthouse at dawn"))
       = [ "API request failed: " ++ msg;
           "Response status: 404";
           "Response text: no such model" ].
Proof.
  destruct (generate_image_http_error_status (T := AsciiText.text)
              (Script.world_status 404 "Not Found" "no such model")
              Demo.image_gen "a lighthouse at dawn" "output" 1024 1024 []
              (PostJson (ImageGenerator.api_url Demo.image_gen)
                 (ImageGenerator.headers Demo.image_gen)
                 {| inputs := "a lighthouse at dawn, digital art";
                    parameters :=
                      {| width := 1024; height := 1024;
                         num_inference_steps := 50;
                         guidance_scale := 15 # 2;
                         negative_prompt := "low quality, blurry, distorted" |} |})
              (Script.reply 404 "Not Found" "no such model" None
                 (ImageGenerator.api_url Demo.image_gen)))
    as (msg & Hres & _ & Hrec & _).
  - vm_compute. right. left. reflexivity.
  - cbn. lia.
  - exists msg. split; [exact Hres | exact Hrec].
Defined.

(** X4.  The URL and the header of an image generator always follow
    from its model and its key: the constructor sets them so, and
    [change_model] and [change_style] keep them so while changing only
    the model, or only the style.  So after [change_model] the request
    of [generate_image] goes to the URL of the new model. *)
Theorem image_generator_stays_consistent :
  forall {T : PyText} (w : World),
    (forall model key style h g,
        fst (ImageGenerator.init model key style h) = Ok g ->
        image_generator_consistent g
        /\ ImageGenerator.model_name g = model
        /\ ImageGenerator.api_key g = key
        /\ ImageGenerator.style g = style)
    /\ (forall g model h g',
          image_generator_consistent g ->
          fst (ImageGenerator.change_model g model h) = Ok g' ->
          image_generator_consistent g'
          /\ ImageGenerator.model_name g' = model
          /\ ImageGenerator.api_key g' = ImageGenerator.api_key g
          /\ ImageGenerator.style g' = ImageGenerator.style g)
    /\ (forall g style h g',
          image_generator_consistent g ->
          fst (ImageGenerator.change_style g style h) = Ok g' ->
          image_generator_consistent g'
          /\ ImageGenerator.model_name g' = ImageGenerator.model_name g
          /\ ImageGenerator.api_key g' = ImageGenerator.api_key g
          /\ ImageGenerator.style g' = style)
    /\ (forall g model h g' prompt output_dir width height h',
          image_generator_consistent g ->
          fst (ImageGenerator.change_model g model h) = Ok g' ->
          map request_url
            (requests_sent
               (snd (ImageGenerator.generate_image w g' prompt output_dir
                       width height h')))
          = ["https://api-inference.huggingface.co/models/" ++ model]).
Proof.
  intros T w.
  assert (Hmodel : forall g model h g',
             image_generator_consistent g ->
             fst (ImageGenerator.change_model g model h) = Ok g' ->
             image_generator_consistent g'
             /\ ImageGenerator.model_name g' = model
             /\ ImageGenerator.api_key g' = ImageGenerator.api_key g
             /\ ImageGenerator.style g' = ImageGenerator.style g).
  { intros g model h g' [Hurl Hhdr].
    unfold ImageGenerator.change_model. rewrite log_bind_run. cbn.
    intros H. injection H as <-. unfold image_generator_consistent. cbn.
    repeat split. exact Hhdr. }
  split.
  { intros model key style h g. unfold ImageGenerator.init.
    rewrite log_bind_run. cbn. intros H. injection H as <-.
    unfold image_generator_consistent. cbn. repeat split. }
  split; [exact Hmodel |].
  split.
  { intros g style h g' [Hurl Hhdr].
    unfold ImageGenerator.change_style. rewrite log_bind_run. cbn.
    intros H. injection H as <-. unfold image_generator_consistent. cbn.
    repeat split; assumption. }
  intros g model h g' prompt output_dir width height h' Hg Hchange.
  destruct (Hmodel g model h g' Hg Hchange) as ([Hurl _] & Hname & _).
  rewrite generate_image_requests. cbn [map request_url].
  now rewrite Hurl, Hname.
Qed.

Lemma image_generator_stays_consistent_witness :
  map request_url
    (requests_sent
       (snd (ImageGenerator.generate_image (T := AsciiText.text) Script.calm
               {| ImageGenerator.model_name := "org/new-model";
                  ImageGenerator.api_key := "hf";
                  ImageGenerator.style := "digital art";
                  ImageGenerator.api_url :=
                    "https://api-inference.huggingface.co/models/org/new-model";
                  ImageGenerator.headers := [("Authorization", "Bearer hf")] |}
               "a lighthouse at dawn" "output" 1024 1024 [])))
  = ["https://api-inference.huggingface.co/models/org/new-model"].
Proof.
  destruct (image_generator_stays_consistent (T := AsciiText.text) Script.calm)
    as (_ & _ & _ & Hurl).
  apply (Hurl Demo.image_gen "org/new-model" []).
  - split; reflexivity.
  - reflexivity.
Defined.




(** * Further properties: the caption backend client *)

Ltac caption_cases w :=
  unfold DescriptionGenerator.generate_description,
    DescriptionGenerator.generate_description_try,
    DescriptionGenerator._get_image_description,
    try_except, bind, log, emit, ret, raise, lift, Py.os_path_exists,
    Py.read_binary, Py.messages_create, Py.first_block_text, Py.random_choice;
  repeat (cbn;
          match goal with
          | |- context [fs_exists w ?h ?p] =>
              destruct (fs_exists w h p) eqn:?
          | |- context [fs_read w ?h ?p] =>
              destruct (fs_read w h p) eqn:?
          | |- context [claude w ?h ?r] =>
              destruct (claude w h r) eqn:?
          | |- context [msg_content ?m] =>
              destruct (msg_content m) as [|[?|] ?] eqn:?
          | |- context [str_format ?t ?kw] =>
              destruct (str_format t kw) eqn:?
          | |- context [DescriptionGenerator.openers ?s] =>
              destruct (DescriptionGenerator.openers s) eqn:?
          | |- context [DescriptionGenerator.closers ?s] =>
              destruct (DescriptionGenerator.closers s) eqn:?
          | |- context [(?p =? "")%string] =>
              destruct (p =? "")%string eqn:?
          end);
  cbn.


(** X7.  [generate_description] sends at most two requests to the
    language model and uses no other backend.  Every request names the
    model of the generator; the request for the caption allows
    [max_length] tokens at temperature 0.8.  The image is sent only for
    a path that is given, is not empty and exists: otherwise no request
    carries an image and at most one request is sent. *)
Theorem generate_description_requests :
  forall {T : PyText} (w : World) (self : DescriptionGenerator.t)
         (prompt : string) (image_path : option string) (max_length : Z)
         (h : history),
    let run := DescriptionGenerator.generate_description w self prompt
                 image_path max_length h in
    (length (claude_requests_sent (snd run)) <= 2)%nat
    /\ requests_sent (snd run) = []
    /\ files_written (snd run) = []
    /\ sleeps (snd run) = []
    /\ Forall (fun req =>
                 cr_model req = DescriptionGenerator.model self
                 /\ (is_vision_request req = false ->
                     cr_max_tokens req = max_length
                     /\ cr_temperature req = Some (8 # 10)))
         (claude_requests_sent (snd run))
    /\ (image_path = None \/ image_path = Some ""
        \/ (exists p, image_path = Some p /\ forall h', fs_exists w h' p = false) ->
        filter is_vision_request (claude_requests_sent (snd run)) = []
        /\ (length (claude_requests_sent (snd run)) <= 1)%nat).
Proof.
  intros T w self prompt image_path max_length h run. subst run.
  destruct image_path as [p |].
  - caption_cases w;
      (split; [lia |]); (split; [reflexivity |]); (split; [reflexivity |]);
      (split; [reflexivity |]);
      (split; [repeat constructor; cbn; intros; try discriminate; auto |]);
      intros [Hnone | [Hempty | (p' & Hp & Hmissing)]];
      try discriminate;
      try (injection Hempty as ->; discriminate);
      try (injection Hp as ->;
           match goal with
           | H : fs_exists w _ _ = true |- _ => rewrite Hmissing in H; discriminate H
           end);
      (split; [reflexivity | lia]).
  - caption_cases w;
      (split; [lia |]); (split; [reflexivity |]); (split; [reflexivity |]);
      (split; [reflexivity |]);
      (split; [repeat constructor; cbn; intros; try discriminate; auto |]);
      intros _; (split; [reflexivity | lia]).
Qed.

Lemma generate_description_requests_witness :
  filter is_vision_request
    (claude_requests_sent
       (snd (DescriptionGenerator.generate_description (T := AsciiText.text)
               (Script.no_files Script.calm) Demo.desc_gen
               "a lighthouse at dawn" (Some "missing.png") 2000 [])))
  = []
  /\ (length
        (claude_requests_sent
           (snd (DescriptionGenerator.generate_description (T := AsciiText.text)
                   (Script.no_files Script.calm) Demo.desc_gen
                   "a lighthouse at dawn" (Some "missing.png") 2000 []))) <= 1)%nat.
Proof.
  apply (generate_description_requests (T := AsciiText.text)
           (Script.no_files Script.calm) Demo.desc_gen "a lighthouse at dawn"
           (Some "missing.png") 2000 []).
  right. right. exists "missing.png". split; reflexivity.
Defined.

(** X8.  When the language model answers every request with a text
    and the template can be formatted, [generate_description] on a
    generator built by the constructor returns that text stripped of the
    white space around it, whatever the image path, and logs no error.
    The caption is then empty when the answer is only white space. *)
Theorem generate_description_returns_stripped_reply :
  forall {T : PyText} (w : World) (template key model : string)
         (self : DescriptionGenerator.t) (prompt : string)
         (image_path : option string) (max_length : Z) (h0 h : history)
         (m : claude_message) (txt : string) (rest : list content_block),
    fst (DescriptionGenerator.init template key model h0) = Ok self ->
    (forall h' req, claude w h' req = Ok m) ->
    msg_content m = TextBlock txt :: rest ->
    (forall d o c, exists f,
        str_format template
          [ ("image_prompt", prompt); ("image_description", d);
            ("opener", o); ("closer", c) ] = Ok f) ->
    let run := DescriptionGenerator.generate_description w self prompt
                 image_path max_length h in
    fst run = Ok (str_strip txt)
    /\ error_records (snd run) = []
    /\ (str_strip txt = "" -> fst run = Ok "").
Proof.
  intros T w template key model self prompt image_path max_length h0 h m txt
    rest Hinit Hsays Hm Hfmt run.
  assert (Hrun : fst run = Ok (str_strip txt) /\ error_records (snd run) = []).
  { subst run.
    unfold DescriptionGenerator.init in Hinit. rewrite log_bind_run in Hinit.
    cbn in Hinit. injection Hinit as <-.
    destruct image_path as [p |];
      caption_cases w;
      repeat match goal with
             | H : claude w ?hh ?rq = _ |- _ =>
                 rewrite Hsays in H; try discriminate H;
                 injection H as <-
             | H : msg_content m = _ |- _ =>
                 rewrite Hm in H; try discriminate H; injection H as <- <-
             | H : str_format _ ?kw = Err _ |- _ =>
                 let Hx := fresh in
                 match kw with
                 | [ _; (_, ?d); (_, ?o); (_, ?c) ] =>
                     destruct (Hfmt d o c) as [? Hx]; rewrite Hx in H;
                     discriminate H
                 end
             end;
      try discriminate; split; reflexivity. }
  destruct Hrun as [Hres Herr]. split; [exact Hres |]. split; [exact Herr |].
  intros Hempty. now rewrite Hres, Hempty.
Qed.

Lemma generate_description_returns_stripped_reply_witness :
  fst (DescriptionGenerator.generate_description (T := AsciiText.text)
         (Script.world_says "  Sunrise over the bay.  ") Demo.desc_gen
         "a lighthouse at dawn" None 2000 [])
  = Ok "Sunrise over the bay.".
Proof.
  apply (generate_description_returns_stripped_reply (T := AsciiText.text)
           (Script.world_says "  Sunrise over the bay.  ")
           "{opener} Write a caption for {image_prompt}: {image_description} {closer}"
           "sk" DescriptionGenerator.default_model Demo.desc_gen
           "a lighthouse at dawn" None 2000 [] []
           {| msg_content := [TextBlock "  Sunrise over the bay.  "] |}
           "  Sunrise over the bay.  " []).
  - reflexivity.
  - reflexivity.
  - reflexivity.
  - intros d o c. eexists. reflexivity.
Defined.

(** X9.  [change_model] keeps what the constructor set up: on a
    generator built by the constructor and then given another model,
    [generate_description] still never raises, keeps the template, and
    names the new model in every request it sends. *)
Theorem description_generator_change_model_keeps_fallback :
  forall {T : PyText} (w : World) (template key model new_model : string)
         (self self' : DescriptionGenerator.t) (prompt : string)
         (image_path : option string) (max_length : Z) (h0 h1 h : history),
    fst (DescriptionGenerator.init template key model h0) = Ok self ->
    fst (DescriptionGenerator.change_model self new_model h1) = Ok self' ->
    let run := DescriptionGenerator.generate_description w self' prompt
                 image_path max_length h in
    (exists s, fst run = Ok s)
    /\ DescriptionGenerator.prompt_template self' = template
    /\ Forall (fun req => cr_model req = new_model)
         (claude_requests_sent (snd run)).
Proof.
  intros T w template key model new_model self self' prompt image_path
    max_length h0 h1 h Hinit Hchange run.
  destruct (init_phrases template key model h0 self Hinit) as (Ho & Hc & Ht).
  unfold DescriptionGenerator.change_model in Hchange.
  rewrite log_bind_run in Hchange. cbn in Hchange. injection Hchange as <-.
  subst run. cbn [DescriptionGenerator.prompt_template].
  set (self' := {| DescriptionGenerator.prompt_template :=
                     DescriptionGenerator.prompt_template self;
                   DescriptionGenerator.api_key :=
                     DescriptionGenerator.api_key self;
                   DescriptionGenerator.model := new_model;
                   DescriptionGenerator.openers :=
                     DescriptionGenerator.openers self;
                   DescriptionGenerator.closers :=
                     DescriptionGenerator.closers self |}).
  split.
  - assert (Hcases := generate_description_cases w self' prompt image_path
                        max_length h).
    assert (Ho' : DescriptionGenerator.openers self' <> [])
      by (unfold self'; cbn; rewrite Ho; discriminate).
    assert (Hc' : DescriptionGenerator.closers self' <> [])
      by (unfold self'; cbn; rewrite Hc; discriminate).
    specialize (Hcases Ho' Hc').
    match type of Hcases with
    | match ?a with _ => _ end => destruct a
    end.
    + eexists. exact Hcases.
    + destruct Hcases as (o & c & _ & _ & Hr). eexists. exact Hr.
  - split; [exact Ht |].
    destruct (generate_description_requests w self' prompt image_path
                max_length h)
      as (_ & _ & _ & _ & Hall & _).
    eapply Forall_impl; [| exact Hall]. intros req [Hmodel _]. exact Hmodel.
Qed.

Lemma description_generator_change_model_keeps_fallback_witness :
  Forall (fun req => cr_model req = "claude-3-haiku-20240307")
    (claude_requests_sent
       (snd (DescriptionGenerator.generate_description (T := AsciiText.text)
               Script.calm
               {| DescriptionGenerator.prompt_template :=
                    "{opener} Write a caption for {image_prompt}: {image_description} {closer}";
                  DescriptionGenerator.api_key := "sk";
                  DescriptionGenerator.model := "claude-3-haiku-20240307";
                  DescriptionGenerator.openers := DescriptionGenerator.the_openers;
                  DescriptionGenerator.closers := DescriptionGenerator.the_closers |}
               "a lighthouse at dawn" None 2000 []))).
Proof.
  apply (description_generator_change_model_keeps_fallback (T := AsciiText.text)
           Script.calm
           "{opener} Write a caption for {image_prompt}: {image_description} {closer}"
           "sk" DescriptionGenerator.default_model "claude-3-haiku-20240307"
           Demo.desc_gen _ "a lighthouse at dawn" None 2000 [] [] []).
  - reflexivity.
  - reflexivity.
Defined.


(** * Further properties: the scheduled workflow *)






(** X11.  With nothing to post, a count of zero or less, the scheduled
    run writes its opening record and stops: no attempt, no sleep. *)
Theorem scheduled_workflow_nothing_to_post :
  forall {T : PyText} (w : World) (image_gen : ImageGenerator.t)
         (desc_gen : DescriptionGenerator.t) (insta_poster : InstagramPoster.t)
         (config : Main.Config) (output_dir : string) (h : history),
    (Main.total_posts_of config <= 0)%Z ->
    Main.scheduled_workflow w image_gen desc_gen insta_poster config output_dir h
    = (Ok tt, [start_log config]).
Proof.
  intros T w image_gen desc_gen insta_poster config output_dir h Hn.
  rewrite scheduled_run. unfold range.
  replace (Z.to_nat (Main.total_posts_of config)) with 0%nat by lia.
  reflexivity.
Qed.

Lemma scheduled_workflow_nothing_to_post_witness :
  Demo.run_scheduled Demo.second_fails (-2)
  = (Ok tt, [start_log (Demo.config (-2))]).
Proof.
  apply (scheduled_workflow_nothing_to_post (T := AsciiText.text)
           (Demo.world Demo.second_fails) Demo.image_gen Demo.desc_gen
           Demo.insta_poster (Demo.config (-2)) "output" []).
  vm_compute. discriminate.
Defined.


Section SleepFacts.
Context {T : PyText} (w : World).
Variables (image_gen : ImageGenerator.t) (desc_gen : DescriptionGenerator.t)
          (insta_poster : InstagramPoster.t) (config : Main.Config)
          (output_dir : string).

Local Abbreviation turn :=
  (Main.scheduled_iteration w image_gen desc_gen insta_poster config output_dir).


End SleepFacts.





(** * Further properties: the publishing client *)

Lemma last_app_cons {A} (l : list A) (x : A) (l' : list A) (d : A) :
  last (l ++ x :: l') d = last (x :: l') d.
Proof.
  induction l as [|a l IH]; [reflexivity |].
  cbn [app]. rewrite <- IH. cbn [last].
  destruct (l ++ x :: l')%list eqn:E; [| reflexivity].
  now destruct l.
Qed.

(** A trace that ends with a given event. *)
Ltac ends_with_record :=
  repeat match goal with
         | |- context [(?a :: (?l ++ ?r))%list] => rewrite (app_comm_cons l r a)
         | |- context [(?l ++ (?m ++ ?r))%list] => rewrite (app_assoc l m r)
         end;
  apply last_last.

Section PosterOutcome.
Context {T : PyText} (w : World).

Lemma create_outcome (self : InstagramPoster.t) (path caption : string)
    (h : history) :
  let creq := creation_request self path caption in
  let cres := http w (h ++ [upload_log path])%list creq in
  fst (InstagramPoster._create_media_container w self path caption h)
  = match reply_id cres with
    | Some cid => Ok cid
    | None => Err (creation_error cres)
    end.
Proof.
  intros creq cres.
  unfold InstagramPoster._create_media_container,
    InstagramPoster._upload_image_to_temporary_storage,
    Py.requests_post, Py.response_json, Py.dict_get, bind, log, emit, ret, raise.
  cbn.
  match goal with
  | |- context [http w ?hh ?rq] => change (http w hh rq) with cres
  end.
  clearbody cres. unfold reply_id, creation_error.
  destruct cres as [resp | e]; cbn; [| reflexivity].
  destruct (status_code resp =? 200)%Z; cbn; [| reflexivity].
  destruct (json_body resp) as [j |]; cbn; [| reflexivity].
  destruct j; cbn; try reflexivity.
  destruct (assoc_get "id" items) as [v |]; cbn; [| reflexivity].
  destruct (truthy v); reflexivity.
Qed.

Lemma publish_outcome (self : InstagramPoster.t) (cid : json) (h : history) :
  exists pres logs,
    Forall (fun e => is_log e = true) logs
    /\ snd (InstagramPoster._publish_container w self cid h)
       = ESleep 5 :: EHttp (publish_request self cid) pres :: logs
    /\ match fst (InstagramPoster._publish_container w self cid h) with
       | Ok (JObj items) => publish_result pres = Ok (JObj items)
       | Ok j => publish_result pres
                 = Err (mk_exn AttributeError
                          ("'" ++ type_name j ++ "' object has no attribute 'get'"))
       | Err e => publish_result pres = Err e
       end.
Proof.
  unfold InstagramPoster._publish_container, Py.time_sleep,
    Py.requests_post, Py.response_json, bind, log, emit, ret, raise.
  cbn.
  match goal with
  | |- context [http w ?hh ?rq] => generalize (http w hh rq)
  end.
  intros pres. exists pres. unfold publish_result.
  destruct pres as [resp | e]; cbn.
  2: { eexists; split; [| split; reflexivity]; constructor. }
  destruct (status_code resp =? 200)%Z; cbn.
  2: { eexists; split; [| split; reflexivity]; repeat constructor. }
  destruct (json_body resp) as [j |]; cbn.
  2: { eexists; split; [| split; reflexivity]; repeat constructor. }
  destruct j; cbn; (eexists; split; [| split; reflexivity]; repeat constructor).
Qed.

(** A run of [post] on a file that exists: its trace and its result. *)
Lemma post_outcome (self : InstagramPoster.t) (path caption : string)
    (hashtags : option (list string)) (h : history) :
  fs_exists w h path = true ->
  let full := InstagramPoster.full_caption caption hashtags in
  let creq := creation_request self path full in
  let run := InstagramPoster.post w self path caption hashtags h in
  exists cres tail,
    snd run
    = (post_prelude path full ++ upload_log path :: EHttp creq cres :: tail)%list
    /\ match reply_id cres with
       | Some cid =>
           exists logs1 pres logs2,
             tail = (logs1 ++ ESleep 5
                     :: EHttp (publish_request self cid) pres :: logs2)%list
             /\ Forall (fun e => is_log e = true) logs1
             /\ Forall (fun e => is_log e = true) logs2
             /\ fst run = publish_result pres
       | None =>
           Forall (fun e => is_log e = true) tail
           /\ fst run = Err (creation_error cres)
       end
    /\ (forall e, fst run = Err e ->
          last (snd run) (ESleep 0)
          = ELog InstagramPoster.logger ERROR
              ("Failed to post to Instagram: " ++ exn_msg e)).
Proof.
  intros Hex full creq run. subst run.
  destruct (InstagramPoster.post w self path caption hashtags h)
    as [rr ees] eqn:Hpost.
  cbn [fst snd]. revert Hpost.
  unfold InstagramPoster.post, Py.os_path_exists.
  unfold bind at 1. rewrite Hex. cbn [negb].
  fold full.
  unfold bind at 1. unfold log at 1, emit at 1.
  unfold bind at 1. unfold log at 1, emit at 1.
  unfold try_except. unfold bind at 1.
  match goal with
  | |- context [InstagramPoster._create_media_container w self path full ?hh] =>
      destruct (create_run w self path full hh) as (logs1 & Hlogs1 & Hes & _);
      pose proof (create_outcome self path full hh) as Hr;
      destruct (InstagramPoster._create_media_container w self path full hh)
        as [r es] eqn:Hrun
  end.
  cbn [fst snd] in Hes, Hr. cbv zeta in Hr. subst es.
  match type of Hr with
  | context [reply_id ?c] => set (cres := c) in *
  end.
  exists cres. clearbody cres.
  destruct (reply_id cres) as [cid |].
  - subst r. try revert Hpost.
    unfold bind at 1.
    match goal with
    | |- context [InstagramPoster._publish_container w self cid ?hh] =>
        destruct (publish_outcome self cid hh)
          as (pres & logs2 & Hlogs2 & Hes2 & Hr2);
        destruct (InstagramPoster._publish_container w self cid hh)
          as [r2 es2] eqn:Hrun2
    end.
    cbn [fst snd] in Hes2, Hr2. subst es2. try revert Hpost.
    destruct r2 as [resp | e]; cbn.
    + unfold Py.dict_get, bind, log, emit, ret, raise.
      destruct resp; cbn; intros Hp; injection Hp as <- <-;
        rewrite <- ?app_assoc; cbn [app]; rewrite ?app_nil_r;
        (eexists; split; [reflexivity |]);
        (split;
         [ exists logs1, pres; eexists; (split; [reflexivity |]);
           (split; [exact Hlogs1 |]);
           (split;
            [ repeat (apply Forall_app; split); try assumption;
              repeat (apply Forall_cons; [reflexivity |]); apply Forall_nil
            | symmetry; exact Hr2 ])
         | intros e He; try discriminate He; injection He as <-;
           ends_with_record ]).
    + intros Hp; injection Hp as <- <-.
      rewrite <- ?app_assoc; cbn [app]; rewrite ?app_nil_r.
      eexists; split; [reflexivity |]. split.
      * exists logs1, pres; eexists; (split; [reflexivity |]).
        split; [exact Hlogs1 |].
        split; [| symmetry; exact Hr2].
        repeat (apply Forall_app; split); try assumption;
          repeat (apply Forall_cons; [reflexivity |]); apply Forall_nil.
      * intros e' He; injection He as <-. ends_with_record.
  - subst r. try revert Hpost. cbn.
    intros Hp; injection Hp as <- <-.
    eexists; split; [reflexivity |]. split.
    + split; [| reflexivity].
      apply Forall_app; split; [exact Hlogs1 |].
      repeat (apply Forall_cons; [reflexivity |]); apply Forall_nil.
    + intros e He; injection He as <-. ends_with_record.
Qed.
End PosterOutcome.

(** X14.  The result of [post] on a file that exists follows from the
    two replies.  When the reply to the creation gives no identifier,
    [post] raises for that reason and does not sleep.  Otherwise it
    waits 5 seconds, sends the publish request, and returns the JSON
    object of the reply, or raises: for a reply that is not 200, for a
    body that is not JSON, and also for a JSON body that is not an
    object, although the backend has then accepted the publication.
    Whenever it raises, its last record is "Failed to post to
    Instagram" with the reason. *)
Theorem post_result_follows_replies :
  forall {T : PyText} (w : World) (self : InstagramPoster.t)
         (path caption : string) (hashtags : option (list string))
         (h : history),
    fs_exists w h path = true ->
    let run := InstagramPoster.post w self path caption hashtags h in
    exists cres,
      In (EHttp (creation_request self path
                   (InstagramPoster.full_caption caption hashtags)) cres)
         (snd run)
      /\ match reply_id cres with
         | None => fst run = Err (creation_error cres) /\ sleeps (snd run) = []
         | Some cid =>
             exists pres,
               In (EHttp (publish_request self cid) pres) (snd run)
               /\ fst run = publish_result pres
               /\ sleeps (snd run) = [5%Z]
         end
      /\ (forall e, fst run = Err e ->
            last (snd run) (ESleep 0)
            = ELog InstagramPoster.logger ERROR
                ("Failed to post to Instagram: " ++ exn_msg e)).
Proof.
  intros T w self path caption hashtags h Hex run.
  destruct (post_outcome w self path caption hashtags h Hex)
    as (cres & tail & Hes & Hcase & Hlast).
  fold run in Hes, Hcase, Hlast.
  exists cres. split; [| split; [| exact Hlast]].
  - rewrite Hes. apply in_or_app. right. right. left. reflexivity.
  - rewrite Hes. clear Hes Hlast.
    destruct (reply_id cres) as [cid |].
    + destruct Hcase as (logs1 & pres & logs2 & -> & Hl1 & Hl2 & Hres).
      exists pres. split; [| split; [exact Hres |]].
      * apply in_or_app. right. right. right.
        apply in_or_app. right. right. left. reflexivity.
      * rewrite sleeps_app. unfold post_prelude, upload_log.
        cbn [sleeps app]. rewrite sleeps_app.
        rewrite (logs_no_sleeps logs1) by assumption.
        cbn [sleeps app]. now rewrite (logs_no_sleeps logs2).
    + destruct Hcase as (Hl & Hres). split; [exact Hres |].
      rewrite sleeps_app. unfold post_prelude, upload_log.
      cbn [sleeps app]. now apply logs_no_sleeps.
Qed.

Lemma post_result_follows_replies_witness :
  let run := InstagramPoster.post (T := AsciiText.text)
               (Script.world_publish
                  (fun req => Ok (Script.reply 500 "Internal Server Error" "busy"
                                    None (request_url req))))
               Demo.insta_poster "img.png" "A caption." None Demo.h_img in
  last (snd run) (ESleep 0)
  = ELog InstagramPoster.logger ERROR
      "Failed to post to Instagram: Failed to publish media: busy".
Proof.
  intros run.
  destruct (post_result_follows_replies (T := AsciiText.text)
              (Script.world_publish
                 (fun req => Ok (Script.reply 500 "Internal Server Error" "busy"
                                   None (request_url req))))
              Demo.insta_poster "img.png" "A caption." None Demo.h_img)
    as (cres & _ & _ & Hlast).
  - vm_compute. reflexivity.
  - apply (Hlast (mk_exn Exception_ "Failed to publish media: busy")).
    vm_compute. reflexivity.
Defined.

(** X15.  [get_account_info] sends one GET request for the account and
    never sleeps; its result follows from the reply.  It has no handler
    of its own: a reply that is not 200 is recorded as an error before
    it is raised, while a request that raises and a body that is not a
    JSON object raise without any error record. *)
Theorem get_account_info_follows_reply :
  forall {T : PyText} (w : World) (self : InstagramPoster.t) (h : history),
    let run := InstagramPoster.get_account_info w self h in
    let res := http w h (account_request self) in
    fst run = account_result res
    /\ requests_sent (snd run) = [account_request self]
    /\ sleeps (snd run) = []
    /\ error_records (snd run)
       = match res with
         | Ok resp => if (status_code resp =? 200)%Z then []
                      else ["Failed to get account info: " ++ text resp]
         | Err _ => []
         end.
Proof.
  intros T w self h run res. subst run.
  unfold InstagramPoster.get_account_info, Py.requests_get, Py.response_json,
    Py.dict_get, bind, log, emit, ret, raise.
  cbn.
  change (http w h _) with res. clearbody res. unfold account_result.
  destruct res as [resp | e]; cbn; [| repeat split; reflexivity].
  destruct (status_code resp =? 200)%Z; cbn; [| repeat split; reflexivity].
  destruct (json_body resp) as [j |]; cbn; [| repeat split; reflexivity].
  destruct j; cbn; repeat split; reflexivity.
Qed.

(** * Further properties: loading the configuration *)

Lemma assoc_get_set_same (k : string) (v : json) (items : list (string * json)) :
  assoc_get k (MainSetup.assoc_set k v items) = Some v.
Proof.
  induction items as [|[k' v'] items IH]; cbn.
  - now rewrite String.eqb_refl.
  - destruct (k' =? k) eqn:E; cbn.
    + now rewrite String.eqb_refl.
    + now rewrite E.
Qed.

Lemma assoc_get_set_other (a k : string) (v : json)
    (items : list (string * json)) :
  a <> k -> assoc_get a (MainSetup.assoc_set k v items) = assoc_get a items.
Proof.
  intros Hne. induction items as [|[k' v'] items IH]; cbn.
  - destruct (k =? a) eqn:E; [| reflexivity].
    apply String.eqb_eq in E. congruence.
  - destruct (k' =? k) eqn:E; cbn.
    + apply String.eqb_eq in E. subst k'.
      destruct (k =? a) eqn:E'; [| reflexivity].
      apply String.eqb_eq in E'. congruence.
    + now rewrite IH.
Qed.

Section ConfigFacts.
Context {T : PyText}.

Lemma store_shape (d d' : json) (k : string) (v : json) :
  MainSetup.store d k v = Ok d' ->
  exists items, d = JObj items /\ d' = JObj (MainSetup.assoc_set k v items).
Proof.
  destruct d; cbn; intros H; try discriminate H.
  injection H as <-. eexists; split; reflexivity.
Qed.

Lemma subscript_shape (d inner : json) (k : string) :
  MainSetup.subscript d k = Ok inner ->
  exists items, d = JObj items /\ assoc_get k items = Some inner.
Proof.
  destruct d; cbn; intros H; try discriminate H.
  destruct (assoc_get k items) as [x |] eqn:E; [| discriminate H].
  injection H as <-. eexists; split; [reflexivity | exact E].
Qed.

Lemma store_at_shape (d d' : json) (p : string) (rest : list string)
    (k : string) (v : json) :
  MainSetup.store_at d (p :: rest) k v = Ok d' ->
  exists items inner inner',
    d = JObj items /\ assoc_get p items = Some inner
    /\ MainSetup.store_at inner rest k v = Ok inner'
    /\ d' = JObj (MainSetup.assoc_set p inner' items).
Proof.
  cbn [MainSetup.store_at]. intros H.
  destruct (MainSetup.subscript d p) as [inner |] eqn:Hsub; [| discriminate H].
  destruct (MainSetup.store_at inner rest k v) as [inner' |] eqn:Hin;
    [| discriminate H].
  apply subscript_shape in Hsub. destruct Hsub as (items & -> & Hget).
  apply store_shape in H. destruct H as (items' & Heq & ->).
  injection Heq as <-.
  exists items, inner, inner'. repeat split; assumption.
Qed.

(** What is stored is found again. *)
Lemma store_at_lookup (path : list string) :
  forall (d d' : json) (k : string) (v : json),
    MainSetup.store_at d path k v = Ok d' ->
    MainSetup.lookup_at d' (path ++ [k]) = Some v.
Proof.
  induction path as [|p rest IH]; intros d d' k v H.
  - apply store_shape in H. destruct H as (items & -> & ->).
    cbn. now rewrite assoc_get_set_same.
  - apply store_at_shape in H.
    destruct H as (items & inner & inner' & -> & Hget & Hin & ->).
    cbn [app MainSetup.lookup_at]. rewrite assoc_get_set_same.
    now apply (IH inner).
Qed.

(** A store leaves every entry on a path that parts from its own. *)
Lemma store_at_keeps (pre : list string) :
  forall (d d' : json) (path : list string) (k : string) (v : json)
         (a b : string) (r1 r2 : list string),
    MainSetup.store_at d path k v = Ok d' ->
    (path ++ [k] = pre ++ b :: r2)%list ->
    a <> b ->
    MainSetup.lookup_at d' (pre ++ a :: r1) = MainSetup.lookup_at d (pre ++ a :: r1).
Proof.
  induction pre as [|x pre IH]; intros d d' path k v a b r1 r2 H Hpath Hne.
  - destruct path as [|p rest]; cbn [app] in Hpath.
    + injection Hpath as -> <-.
      apply store_shape in H. destruct H as (items & -> & ->).
      cbn [app MainSetup.lookup_at]. now rewrite assoc_get_set_other.
    + injection Hpath as -> _.
      apply store_at_shape in H.
      destruct H as (items & inner & inner' & -> & _ & _ & ->).
      cbn [app MainSetup.lookup_at]. now rewrite assoc_get_set_other.
  - destruct path as [|p rest]; cbn [app] in Hpath.
    + injection Hpath as _ Hnil. now destruct pre.
    + injection Hpath as -> Hrest.
      apply store_at_shape in H.
      destruct H as (items & inner & inner' & -> & Hget & Hin & ->).
      cbn [app MainSetup.lookup_at].
      rewrite assoc_get_set_same, Hget.
      now apply (IH inner inner' rest k v a b r1 r2).
Qed.

Variable getenv : string -> option string.

Lemma override_sets (name : string) (path : list string) (k v : string)
    (c c' : json) :
  getenv name = Some v -> v <> "" ->
  MainSetup.override getenv name path k c = Ok c' ->
  MainSetup.lookup_at c' (path ++ [k]) = Some (JStr v).
Proof.
  intros Hv Hne. unfold MainSetup.override. rewrite Hv.
  destruct (v =? "") eqn:E; [apply String.eqb_eq in E; contradiction |].
  cbn [negb]. apply store_at_lookup.
Qed.

Lemma override_keeps (name : string) (path : list string) (k : string)
    (c c' : json) (pre : list string) (a b : string) (r1 r2 : list string) :
  MainSetup.override getenv name path k c = Ok c' ->
  (path ++ [k] = pre ++ b :: r2)%list ->
  a <> b ->
  MainSetup.lookup_at c' (pre ++ a :: r1) = MainSetup.lookup_at c (pre ++ a :: r1).
Proof.
  unfold MainSetup.override.
  destruct (getenv name) as [v |]; [| intros H; now injection H as <-].
  destruct (negb (v =? "")); [| intros H; now injection H as <-].
  apply store_at_keeps.
Qed.

Lemma override_unset (name : string) (path : list string) (k : string)
    (c : json) :
  getenv name = None \/ getenv name = Some "" ->
  MainSetup.override getenv name path k c = Ok c.
Proof.
  unfold MainSetup.override. now intros [-> | ->].
Qed.
End ConfigFacts.

(** The entry at [pre ++ a :: r1] is the one that configuration [c] had:
    the store [H] went another way after [pre]. *)
Ltac kept H c pre a b r1 r2 :=
  transitivity (MainSetup.lookup_at c (pre ++ a :: r1)%list);
  [ apply (override_keeps _ _ _ _ _ _ pre a b r1 r2 H);
    [reflexivity | discriminate]
  | cbn [app] ].

(** The run of [load_config], step by step. *)
Lemma load_config_run {T : PyText} (w : World)
    (getenv : string -> option string) (json_load : list byte -> result json)
    (p : string) (h : history) :
  let steps :=
    match fs_read w h p with
    | Err e => Err e
    | Ok text =>
        match json_load text with
        | Err e => Err e
        | Ok c0 =>
            match MainSetup.override getenv "HUGGINGFACE_API_KEY" ["api_keys"]
                    "huggingface" c0 with
            | Err e => Err e
            | Ok c1 =>
                match MainSetup.override getenv "ANTHROPIC_API_KEY" ["api_keys"]
                        "anthropic" c1 with
                | Err e => Err e
                | Ok c2 =>
                    match MainSetup.override getenv "INSTAGRAM_ACCESS_TOKEN"
                            ["api_keys"; "instagram"] "access_token" c2 with
                    | Err e => Err e
                    | Ok c3 =>
                        MainSetup.override getenv "INSTAGRAM_USER_ID"
                          ["api_keys"; "instagram"] "user_id" c3
                    end
                end
            end
        end
    end in
  MainSetup.load_config w getenv json_load p h
  = match steps with
    | Ok c => (Ok c, [ELog MainSetup.logger INFO ("Configuration loaded from " ++ p)])
    | Err e => (Err e, [ELog MainSetup.logger ERROR
                          ("Failed to load config: " ++ exn_msg e)])
    end.
Proof.
  cbv zeta.
  unfold MainSetup.load_config, try_except, bind, lift, log, emit, ret, raise,
    Py.read_binary.
  destruct (fs_read w h p) as [text | e]; [| reflexivity].
  destruct (json_load text) as [c0 | e]; [| reflexivity].
  destruct (MainSetup.override getenv "HUGGINGFACE_API_KEY" _ _ c0)
    as [c1 | e]; [| reflexivity].
  destruct (MainSetup.override getenv "ANTHROPIC_API_KEY" _ _ c1)
    as [c2 | e]; [| reflexivity].
  destruct (MainSetup.override getenv "INSTAGRAM_ACCESS_TOKEN" _ _ c2)
    as [c3 | e]; [| reflexivity].
  destruct (MainSetup.override getenv "INSTAGRAM_USER_ID" _ _ c3)
    as [c4 | e]; reflexivity.
Qed.

(** X16.  [load_config] writes exactly one record: the path when it
    returns the configuration, and, when it raises, the message of the
    very exception that it raises again. *)
Theorem load_config_records_its_outcome :
  forall {T : PyText} (w : World) (getenv : string -> option string)
         (json_load : list byte -> result json) (p : string) (h : history),
    let run := MainSetup.load_config w getenv json_load p h in
    snd run
    = match fst run with
      | Ok _ => [ELog MainSetup.logger INFO ("Configuration loaded from " ++ p)]
      | Err e => [ELog MainSetup.logger ERROR
                    ("Failed to load config: " ++ exn_msg e)]
      end.
Proof.
  intros T w getenv json_load p h run. subst run.
  rewrite load_config_run. cbv zeta.
  match goal with
  | |- context [match ?s with Ok c => (Ok c, _) | Err e => _ end] => destruct s
  end; reflexivity.
Qed.

(** X17.  A variable of the environment that is set and not empty wins
    over the file: in the configuration that [load_config] returns, each
    of the four keys holds the value of its variable. *)
Theorem load_config_environment_wins :
  forall {T : PyText} (w : World) (getenv : string -> option string)
         (json_load : list byte -> result json) (p : string) (h : history)
         (config : json) (name : string) (path : list string) (v : string),
    fst (MainSetup.load_config w getenv json_load p h) = Ok config ->
    In (name, path)
       [ ("HUGGINGFACE_API_KEY", ["api_keys"; "huggingface"]);
         ("ANTHROPIC_API_KEY", ["api_keys"; "anthropic"]);
         ("INSTAGRAM_ACCESS_TOKEN", ["api_keys"; "instagram"; "access_token"]);
         ("INSTAGRAM_USER_ID", ["api_keys"; "instagram"; "user_id"]) ] ->
    getenv name = Some v -> v <> "" ->
    MainSetup.lookup_at config path = Some (JStr v).
Proof.
  intros T w getenv json_load p h config name path v Hrun Hin Hv Hne.
  rewrite load_config_run in Hrun. cbv zeta in Hrun.
  destruct (fs_read w h p) as [text | e]; [| discriminate Hrun].
  destruct (json_load text) as [c0 | e]; [| discriminate Hrun].
  destruct (MainSetup.override getenv "HUGGINGFACE_API_KEY" _ _ c0)
    as [c1 | e] eqn:H1; [| discriminate Hrun].
  destruct (MainSetup.override getenv "ANTHROPIC_API_KEY" _ _ c1)
    as [c2 | e] eqn:H2; [| discriminate Hrun].
  destruct (MainSetup.override getenv "INSTAGRAM_ACCESS_TOKEN" _ _ c2)
    as [c3 | e] eqn:H3; [| discriminate Hrun].
  destruct (MainSetup.override getenv "INSTAGRAM_USER_ID" _ _ c3)
    as [c4 | e] eqn:H4; [| discriminate Hrun].
  cbn [fst] in Hrun. injection Hrun as <-.
  destruct Hin as [Hin | [Hin | [Hin | [Hin | []]]]]; injection Hin as <- <-.
  - kept H4 c3 ["api_keys"] "huggingface" "instagram" (@nil string) ["user_id"].
    kept H3 c2 ["api_keys"] "huggingface" "instagram" (@nil string)
      ["access_token"].
    kept H2 c1 ["api_keys"] "huggingface" "anthropic" (@nil string)
      (@nil string).
    exact (override_sets getenv _ _ _ v c0 c1 Hv Hne H1).
  - kept H4 c3 ["api_keys"] "anthropic" "instagram" (@nil string) ["user_id"].
    kept H3 c2 ["api_keys"] "anthropic" "instagram" (@nil string)
      ["access_token"].
    exact (override_sets getenv _ _ _ v c1 c2 Hv Hne H2).
  - kept H4 c3 ["api_keys"; "instagram"] "access_token" "user_id"
      (@nil string) (@nil string).
    exact (override_sets getenv _ _ _ v c2 c3 Hv Hne H3).
  - exact (override_sets getenv _ _ _ v c3 c4 Hv Hne H4).
Qed.

Lemma load_config_environment_wins_witness :
  MainSetup.lookup_at (Script.config_doc "tok-env")
    ["api_keys"; "instagram"; "access_token"]
  = Some (JStr "tok-env").
Proof.
  apply (load_config_environment_wins (T := AsciiText.text)
           (Script.with_file Script.calm "config/config.json" [])
           (Script.env [("INSTAGRAM_ACCESS_TOKEN", "tok-env")])
           (fun _ => Ok (Script.config_doc "tok-file"))
           "config/config.json" [] (Script.config_doc "tok-env")
           "INSTAGRAM_ACCESS_TOKEN" ["api_keys"; "instagram"; "access_token"]
           "tok-env").
  - vm_compute. reflexivity.
  - right. right. left. reflexivity.
  - reflexivity.
  - discriminate.
Defined.

(** X18.  With no variable of the environment set, or only empty ones,
    [load_config] returns the parsed file as it is; and it raises what
    reading or parsing the file raises. *)
Theorem load_config_without_environment :
  forall {T : PyText} (w : World) (getenv : string -> option string)
         (json_load : list byte -> result json) (p : string) (h : history),
    (forall name, getenv name = None \/ getenv name = Some "") ->
    fst (MainSetup.load_config w getenv json_load p h)
    = match fs_read w h p with
      | Ok text => json_load text
      | Err e => Err e
      end.
Proof.
  intros T w getenv json_load p h Hnone.
  rewrite load_config_run. cbv zeta.
  destruct (fs_read w h p) as [text | e]; [| reflexivity].
  destruct (json_load text) as [c0 | e]; [| reflexivity].
  rewrite !override_unset by apply Hnone. reflexivity.
Qed.

Lemma load_config_without_environment_witness :
  fst (Script.run_load [("ANTHROPIC_API_KEY", "")] (Script.config_doc "tok-file"))
  = Ok (Script.config_doc "tok-file").
Proof.
  unfold Script.run_load.
  rewrite (load_config_without_environment (T := AsciiText.text)
             (Script.with_file Script.calm "config/config.json" [])
             (Script.env [("ANTHROPIC_API_KEY", "")])
             (fun _ => Ok (Script.config_doc "tok-file"))
             "config/config.json" []).
  - reflexivity.
  - intros name. cbn [Script.env].
    destruct ("ANTHROPIC_API_KEY" =? name); [right | left]; reflexivity.
Defined.

(** X19.  A variable that is set needs its section in the file: when the
    parsed file is an object without "api_keys" and one of the four
    variables is set and not empty, [load_config] raises KeyError for
    'api_keys' and records the failure. *)
Theorem load_config_missing_section :
  forall {T : PyText} (w : World) (getenv : string -> option string)
         (json_load : list byte -> result json) (p : string) (h : history)
         (text : list byte) (items : list (string * json)) (name v : string),
    fs_read w h p = Ok text ->
    json_load text = Ok (JObj items) ->
    assoc_get "api_keys" items = None ->
    In name [ "HUGGINGFACE_API_KEY"; "ANTHROPIC_API_KEY";
              "INSTAGRAM_ACCESS_TOKEN"; "INSTAGRAM_USER_ID" ] ->
    getenv name = Some v -> v <> "" ->
    MainSetup.load_config w getenv json_load p h
    = (Err (mk_exn KeyError (str_repr "api_keys")),
       [ELog MainSetup.logger ERROR
          ("Failed to load config: " ++ str_repr "api_keys")]).
Proof.
  intros T w getenv json_load p h text items name v Hread Hparse Hnone Hin Hv Hne.
  rewrite load_config_run. cbv zeta. rewrite Hread, Hparse.
  assert (Hstep : forall nm path k,
             MainSetup.override getenv nm ("api_keys" :: path) k (JObj items)
             = Ok (JObj items)
             \/ MainSetup.override getenv nm ("api_keys" :: path) k (JObj items)
                = Err (mk_exn KeyError (str_repr "api_keys"))).
  { intros nm path k. unfold MainSetup.override.
    destruct (getenv nm) as [x |]; [| now left].
    destruct (negb (x =? "")); [| now left].
    right. cbn. now rewrite Hnone. }
  assert (Hset : forall path k,
             MainSetup.override getenv name ("api_keys" :: path) k (JObj items)
             = Err (mk_exn KeyError (str_repr "api_keys"))).
  { intros path k. unfold MainSetup.override. rewrite Hv.
    destruct (v =? "") eqn:E; [apply String.eqb_eq in E; contradiction |].
    cbn. now rewrite Hnone. }
  destruct Hin as [<- | [<- | [<- | [<- | []]]]].
  - now rewrite Hset.
  - destruct (Hstep "HUGGINGFACE_API_KEY" [] "huggingface") as [-> | ->];
      [| reflexivity].
    now rewrite Hset.
  - destruct (Hstep "HUGGINGFACE_API_KEY" [] "huggingface") as [-> | ->];
      [| reflexivity].
    destruct (Hstep "ANTHROPIC_API_KEY" [] "anthropic") as [-> | ->];
      [| reflexivity].
    now rewrite Hset.
  - destruct (Hstep "HUGGINGFACE_API_KEY" [] "huggingface") as [-> | ->];
      [| reflexivity].
    destruct (Hstep "ANTHROPIC_API_KEY" [] "anthropic") as [-> | ->];
      [| reflexivity].
    destruct (Hstep "INSTAGRAM_ACCESS_TOKEN" ["instagram"] "access_token")
      as [-> | ->]; [| reflexivity].
    now rewrite Hset.
Qed.

Lemma load_config_missing_section_witness :
  Script.run_load [("HUGGINGFACE_API_KEY", "hf-env")]
    (JObj [("output_directory", JStr "output")])
  = (Err (mk_exn KeyError "'api_keys'"),
     [ELog MainSetup.logger ERROR "Failed to load config: 'api_keys'"]).
Proof.
  apply (load_config_missing_section (T := AsciiText.text)
           (Script.with_file Script.calm "config/config.json" [])
           (Script.env [("HUGGINGFACE_API_KEY", "hf-env")])
           (fun _ => Ok (JObj [("output_directory", JStr "output")]))
           "config/config.json" [] []
           [("output_directory", JStr "output")] "HUGGINGFACE_API_KEY" "hf-env").
  - reflexivity.
  - reflexivity.
  - reflexivity.
  - left. reflexivity.
  - reflexivity.
  - discriminate.
Defined.

(** * Further properties: the single post *)

(** X20.  When the image generation fails, [single_post_workflow] stops
    there: it raises the same exception, and after the events of the
    image generation it only writes its error record.  No caption is
    asked for and nothing is posted. *)
Theorem single_post_workflow_stops_at_failed_image :
  forall {T : PyText} (w : World) (image_gen : ImageGenerator.t)
         (desc_gen : DescriptionGenerator.t) (insta_poster : InstagramPoster.t)
         (config : Main.Config) (output_dir : string) (h : history) (e : exn),
    let image := ImageGenerator.generate_image w image_gen
                   (Main.default_prompt config) output_dir 1024 1024 h in
    fst image = Err e ->
    Main.single_post_workflow w image_gen desc_gen insta_poster config output_dir h
    = (Err e,
       (snd image
        ++ [ELog Main.logger ERROR
              ("Error in single post workflow: " ++ exn_msg e)])%list).
Proof.
  intros T w image_gen desc_gen insta_poster config output_dir h e image He.
  subst image. unfold Main.single_post_workflow, try_except.
  unfold bind at 1.
  destruct (ImageGenerator.generate_image w image_gen (Main.default_prompt config)
              output_dir 1024 1024 h) as [r es].
  cbn [fst snd] in *. subst r. reflexivity.
Qed.

Lemma single_post_workflow_stops_at_failed_image_witness :
  let w := Demo.world (fun _ => true) in
  Main.single_post_workflow (T := AsciiText.text) w Demo.image_gen Demo.desc_gen
    Demo.insta_poster (Demo.config 1) "output" []
  = (Err (mk_exn ConnectionError "Connection refused"),
     (snd (ImageGenerator.generate_image (T := AsciiText.text) w Demo.image_gen
             "a lighthouse at dawn" "output" 1024 1024 [])
      ++ [ELog Main.logger ERROR
            "Error in single post workflow: Connection refused"])%list).
Proof.
  intros w.
  apply (single_post_workflow_stops_at_failed_image (T := AsciiText.text) w
           Demo.image_gen Demo.desc_gen Demo.insta_poster (Demo.config 1)
           "output" [] (mk_exn ConnectionError "Connection refused")).
  vm_compute. reflexivity.
Defined.

(** X21.  The last record of [single_post_workflow] tells how it ended:
    the result of the post when it returns, and, when it raises, the
    message of the exception that it raises again. *)
Theorem single_post_workflow_last_record :
  forall {T : PyText} (w : World) (image_gen : ImageGenerator.t)
         (desc_gen : DescriptionGenerator.t) (insta_poster : InstagramPoster.t)
         (config : Main.Config) (output_dir : string) (h : history),
    let run := Main.single_post_workflow w image_gen desc_gen insta_poster
                 config output_dir h in
    last (snd run) (ESleep 0)
    = match fst run with
      | Ok result =>
          ELog Main.logger INFO
            ("Posted to Instagram successfully: " ++ Py.py_str result)
      | Err e =>
          ELog Main.logger ERROR ("Error in single post workflow: " ++ exn_msg e)
      end.
Proof.
  intros T w image_gen desc_gen insta_poster config output_dir h run.
  subst run.
  destruct (Main.single_post_workflow w image_gen desc_gen insta_poster config
              output_dir h) as [rr ees] eqn:Hrun.
  cbn [fst snd]. revert Hrun.
  unfold Main.single_post_workflow, try_except.
  unfold bind at 1.
  destruct (ImageGenerator.generate_image w image_gen (Main.default_prompt config)
              output_dir 1024 1024 h) as [[path | e] es1].
  2: { cbn. intros Hp; injection Hp as <- <-. apply last_last. }
  unfold bind at 1. unfold log at 1, emit at 1.
  unfold bind at 1.
  match goal with
  | |- context [DescriptionGenerator.generate_description w desc_gen ?p ?i ?n ?hh] =>
      destruct (DescriptionGenerator.generate_description w desc_gen p i n hh)
        as [[description | e] es2]
  end.
  2: { cbn. intros Hp; injection Hp as <- <-.
       ends_with_record. }
  unfold bind at 1. unfold log at 1, emit at 1.
  unfold bind at 1.
  match goal with
  | |- context [InstagramPoster.post w insta_poster ?p ?c ?t ?hh] =>
      destruct (InstagramPoster.post w insta_poster p c t hh)
        as [[result | e] es3]
  end.
  2: { cbn. intros Hp; injection Hp as <- <-.
       ends_with_record. }
  unfold bind, log, emit, ret. cbn.
  intros Hp; injection Hp as <- <-.
  ends_with_record.
Qed.
